(** * sticky-notes-web: the two icon generation scripts

    A shallow embedding of [create_icon.py] (the decoder-writer) and
    [create_new_icons.py] (the procedural icon drawer), together with the
    part of their runtime that they call into: [base64.b64decode],
    [open]/[write], [os.makedirs], and the Pillow calls [Image.new],
    [ImageDraw.rounded_rectangle], [ImageDraw.line] and [Image.save].

    Python integers are unbounded, so sizes and coordinates are [Z] and
    [//] is [Z.div] (both round towards minus infinity for a positive
    divisor).  Byte strings are lists of [Z] values in [0, 256).  A script
    is a state transformer on a [world] that can raise: the world reached
    when an exception escapes is kept, because nothing is rolled back. *)

From Stdlib Require Import ZArith Lia.
From stdpp Require Import gmap strings list.

(** ** Python runtime: exceptions, the world, the script monad *)

Module Py.

(** Absolute, normalised paths, as their components from the root:
    ["/home/ubuntu"] is [["home"; "ubuntu"]] and ["/"] is [[]]. *)
Definition path := list string.

Definition bytes := list Z.

Inductive binascii_reason :=
| InvalidLength      (* number of data characters is 1 more than a multiple of 4 *)
| IncorrectPadding.

Inductive exn :=
| BinasciiError (why : binascii_reason)   (* binascii.Error, a subclass of ValueError *)
| ValueError (msg : string)
| FileNotFoundError (p : path)
| NotADirectoryError (p : path)
| IsADirectoryError (p : path)
| FileExistsError (p : path)
| MemoryError
| OverflowError.

(** [except OSError] *)
Definition is_OSError (e : exn) : bool :=
  match e with
  | FileNotFoundError _ | NotADirectoryError _
  | IsADirectoryError _ | FileExistsError _ => true
  | BinasciiError _ | ValueError _ | MemoryError | OverflowError => false
  end.

(** [except ValueError]: what the decoding step can raise. *)
Definition is_ValueError (e : exn) : bool :=
  match e with
  | BinasciiError _ | ValueError _ => true
  | _ => false
  end.

Inductive result (A : Type) :=
| Ok (a : A)
| Raise (e : exn).
Arguments Ok {A} a.
Arguments Raise {A} e.

Inductive node :=
| Dir
| File (data : bytes).

Record world := World {
  fs : gmap path node;      (* every entry but the root, which always exists *)
  stdout : list string      (* lines printed so far, oldest first *)
}.

Definition M (A : Type) : Type := world → world * result A.

Definition ret {A} (a : A) : M A := λ w, (w, Ok a).

Definition raise {A} (e : exn) : M A := λ w, (w, Raise e).

Definition bind {A B} (m : M A) (k : A → M B) : M B :=
  λ w, match m w with
       | (w', Ok a) => k a w'
       | (w', Raise e) => (w', Raise e)
       end.

(** [try: m except: h] *)
Definition try_except {A} (m : M A) (h : exn → M A) : M A :=
  λ w, match m w with
       | (w', Ok a) => (w', Ok a)
       | (w', Raise e) => h e w'
       end.

(** A computation that does not touch the world. *)
Definition lift {A} (r : result A) : M A := λ w, (w, r).

Definition print (line : string) : M unit :=
  λ w, (World (fs w) (stdout w ++ [line]), Ok tt).

End Py.
Export Py.

Notation "'let*' x ':=' m 'in' k" := (bind m (λ x, k))
  (at level 10, x binder, m at level 100, k at level 200,
   format "'[v' 'let*'  x  ':='  m  'in' '/' k ']'").
Notation "m '>>' k" := (bind m (λ _, k))
  (at level 90, right associativity).

(** ** The file system calls *)

Module os.

(** [os.stat]: the root is a directory, everything else is looked up. *)
Definition stat (w : world) (p : path) : option node :=
  match p with
  | [] => Some Dir
  | _ => fs w !! p
  end.

(** [os.path.dirname] on a normalised absolute path. *)
Definition dirname (p : path) : path := removelast p.

Definition path_exists (p : path) : M bool :=
  λ w, (w, Ok (match stat w p with Some _ => true | None => false end)).

Definition path_isdir (p : path) : M bool :=
  λ w, (w, Ok (match stat w p with Some Dir => true | _ => false end)).

(** [os.mkdir]: the parent is resolved first, then the name. *)
Definition mkdir (p : path) : M unit :=
  λ w, match stat w (dirname p) with
       | None => (w, Raise (FileNotFoundError p))
       | Some (File _) => (w, Raise (NotADirectoryError p))
       | Some Dir =>
           match stat w p with
           | Some _ => (w, Raise (FileExistsError p))
           | None => (World (<[p := Dir]> (fs w)) (stdout w), Ok tt)
           end
       end.

(** The last statement of [os.makedirs]:
    [try: mkdir(name) except OSError: if not exist_ok or not isdir(name): raise] *)
Definition mkdir_unless_exists (name : path) (exist_ok : bool) : M unit :=
  try_except (mkdir name)
    (λ e, if is_OSError e then
            let* d := path_isdir name in
            if negb exist_ok || negb d then raise e else ret tt
          else raise e).

(** [os.makedirs(name, exist_ok=...)], by recursion on the components of
    [name] from the last one: [rname] is [name] reversed, so that its
    tail is [head] reversed.  A missing [head] is created first, and a
    [FileExistsError] from that recursive call is passed over. *)
Fixpoint makedirs_rev (rname : list string) (exist_ok : bool) : M unit :=
  (match rname with
   | [] => ret tt
   | _ :: rhead =>
       let* b := path_exists (rev rhead) in
       if b then ret tt
       else try_except (makedirs_rev rhead exist_ok)
              (λ e, match e with
                    | FileExistsError _ => ret tt
                    | _ => raise e
                    end)
   end) >>
  mkdir_unless_exists (rev rname) exist_ok.

Definition makedirs (name : path) (exist_ok : bool) : M unit :=
  makedirs_rev (rev name) exist_ok.

(** [with open(p, 'wb') as f: f.write(data)]: opening creates or
    truncates the file, the write and the close cannot fail here. *)
Definition write_binary (p : path) (data : bytes) : M unit :=
  λ w, match stat w (dirname p) with
       | None => (w, Raise (FileNotFoundError p))
       | Some (File _) => (w, Raise (NotADirectoryError p))
       | Some Dir =>
           match stat w p with
           | Some Dir => (w, Raise (IsADirectoryError p))
           | _ => (World (<[p := File data]> (fs w)) (stdout w), Ok tt)
           end
       end.

(** [os.remove] *)
Definition remove (p : path) : M unit :=
  λ w, match stat w p with
       | None => (w, Raise (FileNotFoundError p))
       | Some Dir => (w, Raise (IsADirectoryError p))
       | Some (File _) => (World (delete p (fs w)) (stdout w), Ok tt)
       end.

(** The extension separator, ['.']. *)
Definition extsep : Ascii.ascii := Ascii.ascii_of_nat 46.

(** The scan of [os.path.splitext] from the end of a name: [r] is what is
    left of the reversed name, [ext] what has been passed.  At the last
    dot, the extension is the dot and what follows it, unless only dots
    come before it. *)
Fixpoint splitext_scan (r : list Ascii.ascii) (ext : list Ascii.ascii)
    : list Ascii.ascii :=
  match r with
  | [] => []
  | c :: r' =>
      if Ascii.eqb c extsep then
        if forallb (λ d, Ascii.eqb d extsep) r' then [] else c :: ext
      else splitext_scan r' (c :: ext)
  end.

(** [os.path.splitext(p)[1]]: the extension of the last component. *)
Definition splitext_ext (p : path) : string :=
  match rev p with
  | [] => ""
  | name :: _ =>
      String.string_of_list_ascii
        (splitext_scan (rev (String.list_ascii_of_string name)) [])
  end.

(** [with open(p, 'rb') as f: f.read()] *)
Definition read_binary (p : path) : M bytes :=
  λ w, match stat w p with
       | None => (w, Raise (FileNotFoundError p))
       | Some Dir => (w, Raise (IsADirectoryError p))
       | Some (File data) => (w, Ok data)
       end.

(** Every entry lives in a directory. *)
Definition fs_wf (w : world) : Prop :=
  ∀ p n, fs w !! p = Some n → stat w (dirname p) = Some Dir.

(** No component of [p] is taken by a regular file. *)
Definition no_file_on (w : world) (p : path) : Prop :=
  ∀ q d, q `prefix_of` p → stat w q ≠ Some (File d).

End os.

(** ** [binascii.a2b_base64] and [base64.b64decode] *)

Module base64.
Local Open Scope Z_scope.

(** [str.encode('ascii')]: the code points of the text. *)
Definition code_points (s : string) : list Z :=
  map (λ a, Z.of_N (Ascii.N_of_ascii a)) (String.list_ascii_of_string s).

Definition BASE64_PAD : Z := 61.    (* '=' *)

(** The decoding table: the value of an alphabet character, 0 for the
    pad and 255 (an [unsigned char] holding -1) for everything else. *)
Definition table_a2b_base64 (c : Z) : Z :=
  if (65 <=? c) && (c <=? 90) then c - 65               (* A-Z *)
  else if (97 <=? c) && (c <=? 122) then c - 97 + 26    (* a-z *)
  else if (48 <=? c) && (c <=? 57) then c - 48 + 52     (* 0-9 *)
  else if c =? 43 then 62                               (* + *)
  else if c =? 47 then 63                               (* / *)
  else if c =? BASE64_PAD then 0
  else 255.

(** A store into an [unsigned char]. *)
Definition u8 (x : Z) : Z := Z.land x 255.

(** The decoding loop of [a2b_base64] with [strict_mode] off, started at
    the current character with the loop variables [quad_pos],
    [leftchar], [pads] and the bytes [bin_data] written so far.  The
    [goto done] on a complete pad sequence returns at once; falling off
    the end of the input checks [quad_pos]. *)
Fixpoint a2b_loop (ascii_data : list Z) (quad_pos leftchar pads : Z)
    (bin_data : bytes) : result bytes :=
  match ascii_data with
  | [] =>
      if quad_pos =? 0 then Ok bin_data
      else if quad_pos =? 1 then Raise (BinasciiError InvalidLength)
      else Raise (BinasciiError IncorrectPadding)
  | this_ch :: rest =>
      if this_ch =? BASE64_PAD then
        if 2 <=? quad_pos then
          if 4 <=? quad_pos + (pads + 1) then Ok bin_data
          else a2b_loop rest quad_pos leftchar (pads + 1) bin_data
        else a2b_loop rest quad_pos leftchar pads bin_data
      else
        let this_ch := table_a2b_base64 this_ch in
        if 64 <=? this_ch then a2b_loop rest quad_pos leftchar pads bin_data
        else if quad_pos =? 0 then
          a2b_loop rest 1 this_ch 0 bin_data
        else if quad_pos =? 1 then
          a2b_loop rest 2 (Z.land this_ch 15) 0
            (bin_data ++ [u8 (Z.lor (Z.shiftl leftchar 2) (Z.shiftr this_ch 4))])
        else if quad_pos =? 2 then
          a2b_loop rest 3 (Z.land this_ch 3) 0
            (bin_data ++ [u8 (Z.lor (Z.shiftl leftchar 4) (Z.shiftr this_ch 2))])
        else
          a2b_loop rest 0 0 0
            (bin_data ++ [u8 (Z.lor (Z.shiftl leftchar 6) this_ch)])
  end.

Definition a2b_base64 (data : list Z) : result bytes :=
  a2b_loop data 0 0 0 [].

(** [base64.b64decode(s)] on a [str], default arguments: the text must
    be ASCII, then it is decoded with validation off. *)
Definition b64decode (s : string) : result bytes :=
  let data := code_points s in
  if forallb (λ c, c <? 128) data then a2b_base64 data
  else Raise (ValueError "string argument should contain only ASCII characters").

Definition is_pad (c : Z) : bool := c =? BASE64_PAD.

(** The base64 alphabet of RFC 4648, section 4. *)
Definition in_alphabet (c : Z) : bool :=
  negb (is_pad c) && (table_a2b_base64 c <? 64).

(** Well-formed base64 text in the sense of RFC 4648: groups of four
    alphabet characters, the last group possibly ending in one or two
    pads, and nothing else.  This is the usual notion of a valid
    encoding, stated independently of the decoder above. *)
Fixpoint rfc4648_valid (data : list Z) : bool :=
  match data with
  | [] => true
  | a :: b :: c :: d :: rest =>
      in_alphabet a && in_alphabet b &&
      match rest with
      | [] =>
          (in_alphabet c && (in_alphabet d || is_pad d))
          || (is_pad c && is_pad d)
      | _ => in_alphabet c && in_alphabet d && rfc4648_valid rest
      end
  | _ => false
  end.

End base64.

(** ** The Pillow calls

    An image is its mode, its size, its background and the drawing calls
    made on it, in call order; [ImageDraw.Draw(img)] draws into [img]
    itself, so every call extends the same image. *)

Module PIL.
Local Open Scope Z_scope.

Inductive color :=
| RGBA (r g b a : Z)        (* a 4-tuple *)
| ColorName (s : string).   (* a colour string such as '#FEF08A' *)

Inductive draw_op :=
| RoundedRectangle (xy : list Z) (radius : Z) (fill : color)
| Line (xy : list Z) (fill : color) (width : Z).

Record Image := mkImage {
  im_mode : string;
  im_size : Z * Z;            (* (width, height) *)
  im_background : color;
  im_ops : list draw_op
}.

(** The largest C [int]. *)
Definition INT_MAX : Z := 2147483647.

(** [Image.new(mode, size, color)].  A negative side is refused in
    Python; a side that does not fit a C [int] fails the conversion of the
    arguments; a width above [INT_MAX / 4 - 1] fails the line-size check
    of the storage.  Below that the pixel buffer is taken to be allocated:
    the machine has the memory for it. *)
Definition Image_new (mode : string) (size : Z * Z) (c : color) : result Image :=
  if (fst size <? 0) || (snd size <? 0)
  then Raise (ValueError "Width and height must be >= 0")
  else if (INT_MAX <? fst size) || (INT_MAX <? snd size)
  then Raise OverflowError
  else if INT_MAX / 4 - 1 <? fst size
  then Raise MemoryError
  else Ok (mkImage mode size c []).

(** An image without pixels. *)
Definition is_empty (img : Image) : bool :=
  (fst (im_size img) =? 0) || (snd (im_size img) =? 0).

(** [str.lower] on ASCII text. *)
Definition lower (s : string) : string :=
  String.string_of_list_ascii
    (map (λ c, let n := Ascii.N_of_ascii c in
               if ((65 <=? n) && (n <=? 90))%N
               then Ascii.ascii_of_N (n + 32) else c)
       (String.list_ascii_of_string s)).

(** The format [Image.save] picks for a file name, from the lower-cased
    extension.  Of the plugins only the PNG one is modelled, with its two
    extensions: any other extension counts as unknown. *)
Definition save_format (filename : path) : option string :=
  let ext := lower (os.splitext_ext filename) in
  if String.eqb ext ".png" || String.eqb ext ".apng" then Some "PNG"
  else None.

Definition draw (img : Image) (op : draw_op) : Image :=
  mkImage (im_mode img) (im_size img) (im_background img) (im_ops img ++ [op]).

(** [draw.rounded_rectangle(xy, radius=..., fill=...)] *)
Definition rounded_rectangle (img : Image) (xy : list Z) (radius : Z)
    (fill : color) : Image :=
  draw img (RoundedRectangle xy radius fill).

(** [draw.line(xy, fill=..., width=...)] *)
Definition line (img : Image) (xy : list Z) (fill : color) (width : Z) : Image :=
  draw img (Line xy fill width).

End PIL.
Export PIL.

(** ** create_icon.py: the decoder-writer *)

Module create_icon_py.

Definition icon_base64 : string :=
  "iVBORw0KGgoAAAANSUhEUgAAAIAAAACACAYAAADDPmHLAAAAAXNSR0IArs4c6QAAAARnQU1BAACxjwv8YQUAAAAJcEhZcwAADsMAAA7DAcdvqGQAAABTSURBVHhe7cExAQAAAMKg9U9tDQ+gAAAAAAAAAAAAAAAAAAAAAAAAAAAAAAAAAAAAAAAAAAAAAAAAAAAAAAAAAAAAAAAAAAAAAAAAAAAAAAAAAOBvDLQAAf5MuegAAAAASUVORK5CYII=".

Definition icon_path : path :=
  ["home"; "ubuntu"; "sticky-notes-web"; "client"; "public"; "icon-128.png"].

(** The bytes that [icon_base64] stands for, as the decoder computes
    them; [icon_base64_decoded] below checks them against the decoder. *)
Definition icon_data : bytes :=
  Eval vm_compute in
    match base64.b64decode icon_base64 with
    | Ok data => data
    | Raise _ => []
    end.

(** The script, with the embedded text as a parameter: decode, then
    open and write, then print. *)
Definition script (payload : string) : M unit :=
  let* icon_data := lift (base64.b64decode payload) in
  os.write_binary icon_path icon_data >>
  print "Icon created successfully.".

Definition main : M unit := script icon_base64.

End create_icon_py.

(** ** create_new_icons.py: the procedural icon drawer *)

Module create_new_icons_py.
Local Open Scope Z_scope.

(** The local variables of [create_icon], as functions of [size]. *)
Definition padding (size : Z) : Z := size / 8.

Definition rect_coords (size : Z) : list Z :=
  [padding size; padding size; size - padding size; size - padding size].

Definition shadow_offset (size : Z) : Z := size / 16.

Definition shadow_coords (size : Z) : list Z :=
  [rect_coords size !!! 0%nat + shadow_offset size;
   rect_coords size !!! 1%nat + shadow_offset size;
   rect_coords size !!! 2%nat + shadow_offset size;
   rect_coords size !!! 3%nat + shadow_offset size].

Definition line_x_start (size : Z) : Z := rect_coords size !!! 0%nat + size / 4.
Definition line_x_end (size : Z) : Z := rect_coords size !!! 2%nat - size / 4.
Definition line_y_start (size : Z) : Z := rect_coords size !!! 1%nat + size / 3.
Definition line_spacing (size : Z) : Z := size / 6.

Definition shadow_fill : color := RGBA 0 0 0 50.
Definition note_yellow : color := ColorName "#FEF08A".
Definition line_amber : color := ColorName "#D97706".

(** Lines 6 to 29 of [create_icon]: the raster that is then saved. *)
Definition draw_icon (size : Z) : result Image :=
  match Image_new "RGBA" (size, size) (RGBA 0 0 0 0) with
  | Raise e => Raise e
  | Ok img =>
      let img := rounded_rectangle img (shadow_coords size) (size / 5) shadow_fill in
      let img := rounded_rectangle img (rect_coords size) (size / 5) note_yellow in
      let img := line img
                   [line_x_start size; line_y_start size;
                    line_x_end size; line_y_start size]
                   line_amber (size / 12) in
      let img := line img
                   [line_x_start size; line_y_start size + line_spacing size;
                    line_x_end size; line_y_start size + line_spacing size]
                   line_amber (size / 12) in
      Ok img
  end.

Definition icons_dir : path :=
  ["home"; "ubuntu"; "sticky-notes-web"; "client"; "public"; "icons"].

Definition icon16 : path := icons_dir ++ ["icon16.png"].
Definition icon48 : path := icons_dir ++ ["icon48.png"].
Definition icon128 : path := icons_dir ++ ["icon128.png"].

Section Encoder.

(** The PNG encoder of Pillow, a function of the image. *)
Variable png_encode : Image → bytes.

(** [img.save(filename)].  An unknown extension is refused before the
    file is opened.  Otherwise the file is opened for writing, which
    creates or truncates it, and the plugin writes into it.  The PNG
    plugin refuses an image without pixels once the file is open: what it
    had written by then ([png_encode] of such an image) stays in a file
    that existed before, and a file that the call created is removed. *)
Definition save (img : Image) (filename : path) : M unit :=
  match save_format filename with
  | None =>
      raise (ValueError
               (String.append "unknown file extension: "
                  (lower (os.splitext_ext filename))))
  | Some _ =>
      let* existed := os.path_exists filename in
      os.write_binary filename (png_encode img) >>
      if is_empty img then
        (if existed : bool then ret tt else os.remove filename) >>
        raise (ValueError "tile cannot extend outside image")
      else ret tt
  end.

Definition create_icon (size : Z) (filename : path) : M unit :=
  let* img := lift (draw_icon size) in
  save img filename.

(** The three calls of [create_icon] and the final [print]. *)
Definition generate_icons : M unit :=
  create_icon 16 icon16 >>
  create_icon 48 icon48 >>
  create_icon 128 icon128 >>
  print "Icons generated successfully!".

Definition main : M unit :=
  os.makedirs icons_dir true >>
  generate_icons.

End Encoder.

End create_new_icons_py.

(** ** Predicates used to state the properties *)

Module Geometry.
Import create_new_icons_py.
Local Open Scope Z_scope.

(** A box [[x0; y0; x1; y1]] with no negative coordinate, left of its
    right edge and above its bottom edge. *)
Definition box_valid (xy : list Z) : bool :=
  match xy with
  | [x0; y0; x1; y1] =>
      (0 <=? x0) && (0 <=? y0) && (x0 <=? x1) && (y0 <=? y1)
  | _ => false
  end.

Definition op_xy (op : draw_op) : list Z :=
  match op with
  | RoundedRectangle xy _ _ => xy
  | Line xy _ _ => xy
  end.

Definition op_valid (op : draw_op) : bool := box_valid (op_xy op).

(** A point sequence that lies in the box [[x0; y0; x1; y1]]. *)
Definition inside (box xy : list Z) : Prop :=
  match box, xy with
  | [x0; y0; x1; y1], [a; b; c; d] =>
      x0 <= a <= x1 ∧ x0 <= c <= x1 ∧ y0 <= b <= y1 ∧ y0 <= d <= y1
  | _, _ => False
  end.

(** The height of the drawing region, the square inset by the margin. *)
Definition region_height (size : Z) : Z :=
  rect_coords size !!! 3%nat - rect_coords size !!! 1%nat.

(** The spec's words for the first line: one third of the region height
    below the region's top edge. *)
Definition third_of_region_below_top (size : Z) : Z :=
  rect_coords size !!! 1%nat + region_height size / 3.

End Geometry.

Module Worlds.
Import os.

(** [w'] is [w] with some missing directories created: the output and the
    existing entries, the files among them, are as they were. *)
Definition dirs_added (w w' : world) : Prop :=
  stdout w' = stdout w ∧
  ∀ q, stat w' q = stat w q ∨ (stat w q = None ∧ stat w' q = Some Dir).

(** [mkdir -p] of a path on a bare map, for building sample worlds. *)
Fixpoint with_dirs (above p : path) (m : gmap path node) : gmap path node :=
  match p with
  | [] => m
  | c :: p' => with_dirs (above ++ [c]) p' (<[above ++ [c] := Dir]> m)
  end.

(** A machine on which [client/public] exists and nothing is in it. *)
Definition public_world : world :=
  World (with_dirs [] ["home"; "ubuntu"; "sticky-notes-web"; "client"; "public"] ∅) [].

(** A machine with an empty disk. *)
Definition bare_world : world := World ∅ [].

(** A stand-in for the PNG encoder on sample runs: the image width as the
    only byte. *)
Definition width_encoder (img : Image) : bytes := [(im_size img).1].

End Worlds.

Module Shapes.
Import create_new_icons_py.
Local Open Scope Z_scope.

(** The raster and the drawing calls, spelled out. *)
Definition drawn (size : Z) : Image :=
  mkImage "RGBA" (size, size) (RGBA 0 0 0 0)
    [RoundedRectangle (shadow_coords size) (size / 5) shadow_fill;
     RoundedRectangle (rect_coords size) (size / 5) note_yellow;
     Line [line_x_start size; line_y_start size;
           line_x_end size; line_y_start size]
          line_amber (size / 12);
     Line [line_x_start size; line_y_start size + line_spacing size;
           line_x_end size; line_y_start size + line_spacing size]
          line_amber (size / 12)].

(** The pixel grid of an image of side [size], as a box. *)
Definition canvas (size : Z) : list Z := [0; 0; size; size].

(** A rounded rectangle whose two corner arcs fit side by side along
    each edge; lines have no corners. *)
Definition corners_fit (op : draw_op) : Prop :=
  match op with
  | RoundedRectangle [x0; y0; x1; y1] radius _ =>
      2 * radius <= x1 - x0 ∧ 2 * radius <= y1 - y0
  | RoundedRectangle _ _ _ => False
  | Line _ _ _ => True
  end.

(** The characters the decoder acts on: the alphabet and the pad. *)
Definition significant (c : Z) : bool :=
  base64.is_pad c || base64.in_alphabet c.

(** The number of alphabet characters and of pads in a text. *)
Definition count_alphabet (data : list Z) : Z :=
  Z.of_nat (length (List.filter base64.in_alphabet data)).

Definition count_pads (data : list Z) : Z :=
  Z.of_nat (length (List.filter base64.is_pad data)).

(** No alphabet character comes after a pad. *)
Fixpoint pads_last (data : list Z) : bool :=
  match data with
  | [] => true
  | c :: rest =>
      if base64.is_pad c
      then forallb (λ d, negb (base64.in_alphabet d)) rest
      else pads_last rest
  end.

(** What the decoder makes of a text that ends on [quad] characters of
    an unfinished group, followed by [pads] pads: nothing to object to
    ([None]), or the reason of its [binascii.Error]. *)
Definition verdict_at (quad pads : Z) : option binascii_reason :=
  if quad =? 0 then None
  else if quad =? 1 then Some InvalidLength
  else if 4 <=? quad + pads then None
  else Some IncorrectPadding.

(** The same for a whole text in which the pads come last, from its
    counts of alphabet characters and pads. *)
Definition decode_verdict (data : list Z) : option binascii_reason :=
  verdict_at (count_alphabet data mod 4) (count_pads data).

(** The bytes [create_icon] hands to the file system for a size that
    [Image.new] accepts: the encoding of the raster it has drawn. *)
Definition icon_bytes (png_encode : Image → bytes) (size : Z) : bytes :=
  match draw_icon size with
  | Ok img => png_encode img
  | Raise _ => []
  end.

End Shapes.

(** ** The drawer's geometry *)

Section DrawerGeometry.
Import create_new_icons_py Geometry Shapes.
Local Open Scope Z_scope.

Local Ltac div_arith :=
  cbn [lookup_total list_lookup_total] in *;
  Z.div_mod_to_equations; lia.

Lemma draw_icon_ok (size : Z) :
  0 <= size <= 536870910 → draw_icon size = Ok (drawn size).
Proof.
  intros Hs. unfold draw_icon, Image_new, INT_MAX. cbn [fst snd].
  destruct (Z.ltb_spec size 0); [lia|].
  destruct (Z.ltb_spec 2147483647 size); [lia|].
  change (2147483647 / 4 - 1) with 536870910.
  destruct (Z.ltb_spec 536870910 size); [lia|]. reflexivity.
Qed.

(** Whenever the drawer returns a raster, the size was one that
    [Image.new] accepts and the raster is the one spelled out. *)
Lemma draw_icon_inv (size : Z) (img : Image) :
  draw_icon size = Ok img → 0 <= size <= 536870910 ∧ img = drawn size.
Proof.
  unfold draw_icon, Image_new, INT_MAX. cbn [fst snd].
  destruct (Z.ltb_spec size 0); [discriminate|].
  destruct (Z.ltb_spec 2147483647 size); [discriminate|].
  change (2147483647 / 4 - 1) with 536870910.
  destruct (Z.ltb_spec 536870910 size); [discriminate|].
  cbn [orb]. intros [= <-]. split; [lia|reflexivity].
Qed.

Lemma draw_icon_negative (size : Z) :
  size < 0 →
  draw_icon size = Raise (ValueError "Width and height must be >= 0").
Proof.
  intros Hs. unfold draw_icon, Image_new. cbn [fst snd].
  destruct (size <? 0) eqn:Hneg; [reflexivity|lia].
Qed.

(** Above [INT_MAX / 4 - 1] no raster is made: the storage refuses the
    line size, and from [2^31] the size does not even reach it. *)
Lemma draw_icon_too_large (size : Z) :
  536870910 < size →
  draw_icon size =
    Raise (if 2147483647 <? size
           then OverflowError
           else MemoryError).
Proof.
  intros Hs. unfold draw_icon, Image_new, INT_MAX. cbn [fst snd].
  destruct (Z.ltb_spec size 0); [lia|].
  destruct (Z.ltb_spec 2147483647 size); [reflexivity|].
  change (2147483647 / 4 - 1) with 536870910.
  destruct (Z.ltb_spec 536870910 size); [reflexivity|lia].
Qed.

(** C3: for every size S > 0, a raster the drawer produces is an RGBA
    image of exactly S by S pixels, whatever is drawn on it; and it does
    produce one at every size up to 128, the largest the script asks
    for. *)
Theorem draw_icon_dimensions (S : Z) :
  0 < S →
  (∀ img, draw_icon S = Ok img →
          im_size img = (S, S) ∧ im_mode img = "RGBA") ∧
  (S <= 128 → ∃ img, draw_icon S = Ok img).
Proof.
  intros HS. split.
  - intros img [_ ->]%draw_icon_inv. by split.
  - intros Hle. eexists. apply draw_icon_ok. lia.
Qed.

Lemma draw_icon_dimensions_witness :
  ∃ img, draw_icon 48 = Ok img ∧ im_size img = (48, 48) ∧ im_mode img = "RGBA".
Proof.
  destruct (draw_icon_dimensions 48 ltac:(lia)) as [Hdim Hex].
  destruct (Hex ltac:(lia)) as [img Himg].
  exists img. split; [exact Himg|]. exact (Hdim img Himg).
Defined.

(** C4: for every size S >= 16 the shadow offset S // 16 is strictly
    less than the margin S // 8. *)
Theorem shadow_offset_lt_padding (S : Z) :
  16 <= S → shadow_offset S < padding S.
Proof. intros HS. unfold shadow_offset, padding. div_arith. Qed.

Lemma shadow_offset_lt_padding_witness : shadow_offset 16 < padding 16.
Proof. apply (shadow_offset_lt_padding 16). lia. Defined.

(** Below 16 the offset is zero, and below 8 so is the margin. *)
Lemma shadow_offset_small (S : Z) : 0 <= S < 16 → shadow_offset S = 0.
Proof. intros HS. unfold shadow_offset. div_arith. Qed.

(** C5: at size 128 the margin is 16, the corner radius 25, the shadow
    offset 8 and the stroke width 10; at size 16 they are 2, 3, 1 and 1,
    and no coordinate handed to a drawing call is negative. *)
Theorem measurements_128_and_16 :
  (padding 128 = 16 ∧ shadow_offset 128 = 8 ∧
   draw_icon 128 =
     Ok (mkImage "RGBA" (128, 128) (RGBA 0 0 0 0)
           [RoundedRectangle [24; 24; 120; 120] 25 (RGBA 0 0 0 50);
            RoundedRectangle [16; 16; 112; 112] 25 (ColorName "#FEF08A");
            Line [48; 58; 80; 58] (ColorName "#D97706") 10;
            Line [48; 79; 80; 79] (ColorName "#D97706") 10])) ∧
  (padding 16 = 2 ∧ shadow_offset 16 = 1 ∧
   draw_icon 16 =
     Ok (mkImage "RGBA" (16, 16) (RGBA 0 0 0 0)
           [RoundedRectangle [3; 3; 15; 15] 3 (RGBA 0 0 0 50);
            RoundedRectangle [2; 2; 14; 14] 3 (ColorName "#FEF08A");
            Line [6; 7; 10; 7] (ColorName "#D97706") 1;
            Line [6; 9; 10; 9] (ColorName "#D97706") 1]) ∧
   ∀ img, draw_icon 16 = Ok img →
     Forall (λ op, Forall (λ c, 0 <= c) (op_xy op)) (im_ops img)).
Proof.
  split; [repeat split; reflexivity|].
  split; [reflexivity|]. split; [reflexivity|]. split; [reflexivity|].
  intros img Himg. vm_compute in Himg. injection Himg as <-.
  cbn [im_ops]. repeat constructor; cbn; lia.
Qed.

Lemma measurements_128_and_16_witness :
  Forall (λ op, Forall (λ c, 0 <= c) (op_xy op))
    [RoundedRectangle [3; 3; 15; 15] 3 (RGBA 0 0 0 50);
     RoundedRectangle [2; 2; 14; 14] 3 (ColorName "#FEF08A");
     Line [6; 7; 10; 7] (ColorName "#D97706") 1;
     Line [6; 9; 10; 9] (ColorName "#D97706") 1].
Proof.
  exact (proj2 (proj2 (proj2 (proj2 measurements_128_and_16))) _ eq_refl).
Defined.

(** The body is a proper box inside the image for every size >= 0. *)
Lemma rect_coords_bounds (S : Z) :
  0 <= S → 0 <= padding S ∧ padding S <= S - padding S ∧ S - padding S <= S.
Proof. intros HS. unfold padding. div_arith. Qed.

Lemma lines_within_body (S : Z) :
  0 <= S →
  padding S <= line_x_start S ∧ line_x_start S <= line_x_end S ∧
  line_x_end S <= S - padding S ∧
  padding S <= line_y_start S ∧
  line_y_start S + line_spacing S <= S - padding S.
Proof.
  intros HS.
  unfold line_x_start, line_x_end, line_y_start, line_spacing, rect_coords, padding.
  div_arith.
Qed.

(** C1, as the code has it: for every size S > 0 at which the drawer
    gets its raster, the last two drawing calls are horizontal amber lines
    of width S // 12 that run from S // 4 right of the body's left edge to
    S // 4 left of its right edge, the first S // 3 (a third of the size,
    not of the region height) below the body's top edge and the second
    S // 6 below the first; both lie inside the body.  The drawer gets
    its raster at every size up to 128, the largest the script asks for. *)
Theorem decorative_lines (S : Z) :
  0 < S →
  let left := S / 8 in
  let top := S / 8 in
  let right := S - S / 8 in
  let bottom := S - S / 8 in
  (∀ img, draw_icon S = Ok img →
     ∃ shadow body l1 l2,
       im_ops img = [shadow; body; l1; l2] ∧
       op_xy body = [left; top; right; bottom] ∧
       l1 = Line [left + S / 4; top + S / 3; right - S / 4; top + S / 3]
              (ColorName "#D97706") (S / 12) ∧
       l2 = Line [left + S / 4; top + S / 3 + S / 6;
                  right - S / 4; top + S / 3 + S / 6]
              (ColorName "#D97706") (S / 12) ∧
       inside (op_xy body) (op_xy l1) ∧ inside (op_xy body) (op_xy l2)) ∧
  (S <= 128 → ∃ img, draw_icon S = Ok img).
Proof.
  intros HS left top right bottom. split.
  - intros img [_ ->]%draw_icon_inv. do 4 eexists.
    split; [reflexivity|]. split; [reflexivity|].
    split; [reflexivity|]. split; [reflexivity|].
    subst left top right bottom. cbn [op_xy].
    unfold line_x_start, line_x_end, line_y_start, line_spacing, rect_coords, padding.
    cbn [lookup_total list_lookup_total inside].
    split; div_arith.
  - intros Hle. eexists. apply draw_icon_ok. lia.
Qed.

Lemma decorative_lines_witness :
  ∃ img shadow body l1 l2,
    draw_icon 128 = Ok img ∧
    im_ops img = [shadow; body; l1; l2] ∧
    op_xy body = [128 / 8; 128 / 8; 128 - 128 / 8; 128 - 128 / 8] ∧
    l1 = Line [128 / 8 + 128 / 4; 128 / 8 + 128 / 3;
               128 - 128 / 8 - 128 / 4; 128 / 8 + 128 / 3]
           (ColorName "#D97706") (128 / 12) ∧
    l2 = Line [128 / 8 + 128 / 4; 128 / 8 + 128 / 3 + 128 / 6;
               128 - 128 / 8 - 128 / 4; 128 / 8 + 128 / 3 + 128 / 6]
           (ColorName "#D97706") (128 / 12) ∧
    inside (op_xy body) (op_xy l1) ∧ inside (op_xy body) (op_xy l2).
Proof.
  destruct (decorative_lines 128 ltac:(lia)) as [Hlines Hex].
  destruct (Hex ltac:(lia)) as [img Himg].
  destruct (Hlines img Himg) as (shadow & body & l1 & l2 & H).
  exists img, shadow, body, l1, l2. split; [exact Himg|exact H].
Defined.

(** C1 as stated fails at size 128: the region is 96 pixels high and
    starts at y = 16, so a third of its height below its top edge is
    y = 48, while the first line is drawn at y = 58. *)
Lemma first_line_not_at_third_of_region :
  third_of_region_below_top 128 = 48 ∧
  ∃ img l1,
    draw_icon 128 = Ok img ∧ im_ops img !! 2%nat = Some l1 ∧
    op_xy l1 = [48; 58; 80; 58] ∧
    op_xy l1 ≠ [48; third_of_region_below_top 128;
                80; third_of_region_below_top 128].
Proof.
  split; [reflexivity|]. do 2 eexists.
  split; [reflexivity|]. split; [reflexivity|]. split; [reflexivity|].
  vm_compute. discriminate.
Qed.

(** C10: for every size S >= 1 the body satisfies
    0 <= padding <= S - padding, the shadow box has no negative coordinate
    and is ordered, the lines run from left to right, and every drawing
    call the drawer makes on its raster gets a valid box. *)
Theorem drawing_inputs_valid (S : Z) :
  1 <= S →
  (0 <= padding S ∧ padding S <= S - padding S) ∧
  box_valid (shadow_coords S) = true ∧
  line_x_start S <= line_x_end S ∧
  ∀ img, draw_icon S = Ok img → Forall (λ op, op_valid op = true) (im_ops img).
Proof.
  intros HS.
  pose proof (rect_coords_bounds S ltac:(lia)) as (Hp0 & Hp1 & Hp2).
  pose proof (lines_within_body S ltac:(lia)) as (Hx0 & Hx1 & Hx2 & Hy0 & Hy1).
  assert (Hoff : 0 <= shadow_offset S) by (unfold shadow_offset; div_arith).
  assert (Hsp : 0 <= line_spacing S) by (unfold line_spacing; div_arith).
  assert (Hshadow : box_valid (shadow_coords S) = true).
  { unfold box_valid, shadow_coords, rect_coords.
    cbn [lookup_total list_lookup_total].
    repeat (apply andb_true_intro; split); apply Z.leb_le; lia. }
  split; [lia|]. split; [exact Hshadow|]. split; [lia|].
  intros img [_ ->]%draw_icon_inv. cbn [im_ops drawn].
  repeat constructor; unfold op_valid; cbn [op_xy]; try exact Hshadow;
    unfold box_valid, rect_coords;
    repeat (apply andb_true_intro; split); apply Z.leb_le; lia.
Qed.

Lemma drawing_inputs_valid_witness :
  (0 <= padding 1 ∧ padding 1 <= 1 - padding 1) ∧
  box_valid (shadow_coords 1) = true ∧
  line_x_start 1 <= line_x_end 1 ∧
  Forall (λ op, op_valid op = true) (im_ops (drawn 1)).
Proof.
  destruct (drawing_inputs_valid 1 ltac:(lia)) as (Hbody & Hshadow & Hline & Hops).
  split; [exact Hbody|]. split; [exact Hshadow|]. split; [exact Hline|].
  apply Hops. reflexivity.
Defined.

End DrawerGeometry.

(** ** The decoder *)

Section Decoder.
Import base64 Shapes.
Local Open Scope Z_scope.

Lemma is_pad_eq (c : Z) : is_pad c = true → c = BASE64_PAD.
Proof. unfold is_pad. apply Z.eqb_eq. Qed.

Lemma in_alphabet_step (c : Z) :
  in_alphabet c = true →
  (c =? BASE64_PAD) = false ∧ (64 <=? table_a2b_base64 c) = false.
Proof.
  unfold in_alphabet, is_pad. intros [Hp Ht]%andb_true_iff.
  split; [by apply negb_true_iff|]. apply Z.leb_gt. by apply Z.ltb_lt.
Qed.

(** One turn of the loop on an alphabet character. *)
Lemma a2b_loop_alphabet (c : Z) rest quad_pos leftchar pads bin_data :
  in_alphabet c = true →
  a2b_loop (c :: rest) quad_pos leftchar pads bin_data =
    let v := table_a2b_base64 c in
    if quad_pos =? 0 then a2b_loop rest 1 v 0 bin_data
    else if quad_pos =? 1 then
      a2b_loop rest 2 (Z.land v 15) 0
        (bin_data ++ [u8 (Z.lor (Z.shiftl leftchar 2) (Z.shiftr v 4))])
    else if quad_pos =? 2 then
      a2b_loop rest 3 (Z.land v 3) 0
        (bin_data ++ [u8 (Z.lor (Z.shiftl leftchar 4) (Z.shiftr v 2))])
    else a2b_loop rest 0 0 0 (bin_data ++ [u8 (Z.lor (Z.shiftl leftchar 6) v)]).
Proof.
  intros [Hp Ht]%in_alphabet_step. cbn [a2b_loop]. by rewrite Hp, Ht.
Qed.

(** One turn of the loop on a character that is neither in the alphabet
    nor the pad: it is skipped. *)
Lemma a2b_loop_skip (c : Z) rest quad_pos leftchar pads bin_data :
  c ≠ BASE64_PAD → 64 <= table_a2b_base64 c →
  a2b_loop (c :: rest) quad_pos leftchar pads bin_data =
    a2b_loop rest quad_pos leftchar pads bin_data.
Proof.
  intros Hp Ht. cbn [a2b_loop].
  destruct (Z.eqb_spec c BASE64_PAD) as [|_]; [done|].
  destruct (Z.leb_spec 64 (table_a2b_base64 c)); [done|lia].
Qed.

(** The loop raises nothing but [binascii.Error]. *)
Lemma a2b_loop_raises data :
  ∀ quad_pos leftchar pads bin_data e,
    a2b_loop data quad_pos leftchar pads bin_data = Raise e →
    ∃ why, e = BinasciiError why.
Proof.
  induction data as [|c rest IH]; intros q l p acc e; cbn [a2b_loop].
  - repeat case_match; intros [= <-]; eauto.
  - repeat case_match; try discriminate; apply IH.
Qed.

(** Whatever the decoding step raises is a [ValueError], the class of
    decoding errors. *)
Lemma b64decode_raises (s : string) (e : exn) :
  b64decode s = Raise e → is_ValueError e = true.
Proof.
  unfold b64decode, a2b_base64. case_match.
  - intros [why ->]%a2b_loop_raises. reflexivity.
  - intros [= <-]. reflexivity.
Qed.

(** Every produced byte fits an [unsigned char]. *)
Lemma a2b_loop_bytes data :
  ∀ quad_pos leftchar pads bin_data out,
    Forall (λ b, 0 <= b < 256) bin_data →
    a2b_loop data quad_pos leftchar pads bin_data = Ok out →
    Forall (λ b, 0 <= b < 256) out.
Proof.
  assert (Hu8 : ∀ x, 0 <= u8 x < 256).
  { intros x. unfold u8. change 255 with (Z.ones 8).
    rewrite Z.land_ones by lia. apply Z.mod_pos_bound. lia. }
  induction data as [|c rest IH]; intros q l p acc out Hacc; cbn [a2b_loop].
  - repeat case_match; intros [= <-]; done.
  - repeat case_match; try (intros [= <-]; done); apply IH;
      try done; apply Forall_app; split; try done;
      (constructor; [apply Hu8|constructor]).
Qed.

(** Well-formed base64 text is accepted, from any point where a group
    starts. *)
Lemma rfc4648_valid_accepted_from (n : nat) :
  ∀ data bin_data,
    (length data ≤ n)%nat → rfc4648_valid data = true →
    ∃ out, a2b_loop data 0 0 0 bin_data = Ok out.
Proof.
  induction n as [|n IH]; intros data acc Hlen Hv.
  - destruct data; [by eexists|cbn in Hlen; lia].
  - destruct data as [|a [|b [|c [|d rest]]]]; try discriminate; [by eexists|].
    cbn [rfc4648_valid] in Hv.
    apply andb_true_iff in Hv as [[Ha Hb]%andb_true_iff Hv].
    rewrite (a2b_loop_alphabet a) by done; cbv zeta; cbn [Z.eqb Pos.eqb].
    rewrite (a2b_loop_alphabet b) by done; cbv zeta; cbn [Z.eqb Pos.eqb].
    destruct rest as [|r rest'].
    + apply orb_true_iff in Hv as [[Hc Hd]%andb_true_iff|[Hc Hd]%andb_true_iff].
      * rewrite (a2b_loop_alphabet c) by done; cbv zeta; cbn [Z.eqb Pos.eqb].
        apply orb_true_iff in Hd as [Hd|Hd].
        -- rewrite (a2b_loop_alphabet d) by done; cbv zeta; cbn [Z.eqb Pos.eqb].
           by eexists.
        -- apply is_pad_eq in Hd as ->. by eexists.
      * apply is_pad_eq in Hc as ->. apply is_pad_eq in Hd as ->. by eexists.
    + apply andb_true_iff in Hv as [[Hc Hd]%andb_true_iff Hv].
      rewrite (a2b_loop_alphabet c) by done; cbv zeta; cbn [Z.eqb Pos.eqb].
      rewrite (a2b_loop_alphabet d) by done; cbv zeta; cbn [Z.eqb Pos.eqb].
      apply IH; [cbn in *; lia|done].
Qed.

Lemma rfc4648_valid_ascii (data : list Z) :
  rfc4648_valid data = true → forallb (λ c, c <? 128) data = true.
Proof.
  assert (Hal : ∀ c, in_alphabet c = true → (c <? 128) = true).
  { intros c [_ Ht]%andb_true_iff. apply Z.ltb_lt. apply Z.ltb_lt in Ht.
    unfold table_a2b_base64, BASE64_PAD in Ht.
    repeat case_match; lia. }
  assert (Hpad : ∀ c, is_pad c = true → (c <? 128) = true).
  { by intros c ->%is_pad_eq. }
  remember (length data) as n eqn:Hn.
  revert data Hn. induction n as [n IH] using lt_wf_ind. intros data -> Hv.
  destruct data as [|a [|b [|c [|d rest]]]]; try discriminate; [done|].
  cbn [rfc4648_valid] in Hv. cbn [forallb].
  apply andb_true_iff in Hv as [[Ha Hb]%andb_true_iff Hv].
  rewrite (Hal a), (Hal b) by done. cbn [andb].
  destruct rest as [|r rest'].
  - cbn [forallb]. rewrite andb_true_r.
    apply orb_true_iff in Hv as [[Hc Hd]%andb_true_iff|[Hc Hd]%andb_true_iff].
    + rewrite (Hal c) by done. cbn [andb].
      apply orb_true_iff in Hd as [Hd|Hd]; auto.
    + by rewrite (Hpad c), (Hpad d).
  - apply andb_true_iff in Hv as [[Hc Hd]%andb_true_iff Hv].
    rewrite (Hal c), (Hal d) by done. cbn [andb].
    apply (IH (length (r :: rest'))); [cbn; lia|reflexivity|done].
Qed.

(** Every well-formed base64 text decodes. *)
Lemma rfc4648_valid_decodes (s : string) :
  rfc4648_valid (code_points s) = true → ∃ data, b64decode s = Ok data.
Proof.
  intros Hv. unfold b64decode, a2b_base64.
  rewrite (rfc4648_valid_ascii _ Hv).
  by apply (rfc4648_valid_accepted_from (length (code_points s))).
Qed.

(** The loop on a stretch without alphabet characters: only the pads
    count, and only in a group that has two or three characters. *)
Lemma a2b_loop_no_alphabet (tail : list Z) :
  ∀ quad_pos leftchar pads bin_data,
    forallb (λ c, negb (in_alphabet c)) tail = true →
    0 <= quad_pos <= 3 → 0 <= pads → quad_pos < 2 ∨ quad_pos + pads < 4 →
    a2b_loop tail quad_pos leftchar pads bin_data =
      match verdict_at quad_pos (pads + count_pads tail) with
      | None => Ok bin_data
      | Some why => Raise (BinasciiError why)
      end.
Proof.
  unfold verdict_at, count_pads.
  induction tail as [|c rest IH]; intros q l p acc Hna Hq Hp Hqp.
  - cbn [a2b_loop List.filter length].
    destruct (Z.eqb_spec q 0); [done|]. destruct (Z.eqb_spec q 1); [done|].
    destruct (Z.leb_spec 4 (q + (p + Z.of_nat 0))); [lia|done].
  - cbn [forallb] in Hna. apply andb_true_iff in Hna as [Hc Hrest].
    apply negb_true_iff in Hc. cbn [List.filter].
    destruct (is_pad c) eqn:Hpad.
    + apply is_pad_eq in Hpad as ->. cbn [a2b_loop length].
      change (BASE64_PAD =? BASE64_PAD) with true. cbv iota.
      destruct (Z.leb_spec 2 q).
      * destruct (Z.leb_spec 4 (q + (p + 1))).
        -- destruct (Z.eqb_spec q 0); [lia|]. destruct (Z.eqb_spec q 1); [lia|].
           destruct (Z.leb_spec 4 (q + (p + Z.of_nat (S (length (List.filter is_pad rest))))));
             [done|lia].
        -- rewrite IH by (done || lia).
           by replace (p + 1 + Z.of_nat (length (List.filter is_pad rest)))
             with (p + Z.of_nat (S (length (List.filter is_pad rest)))) by lia.
      * rewrite IH by (done || lia).
        destruct (Z.eqb_spec q 0); [done|]. destruct (Z.eqb_spec q 1); [done|lia].
    + rewrite a2b_loop_skip; [by apply IH| |].
      * intros ->. discriminate.
      * unfold in_alphabet in Hc. rewrite Hpad in Hc. cbn [negb andb] in Hc.
        by apply Z.ltb_ge.
Qed.

(** The loop on a text in which the pads come last: the alphabet
    characters fill groups of four, and the stretch after them decides. *)
Lemma a2b_loop_pads_last (data : list Z) :
  ∀ quad_pos leftchar pads bin_data,
    pads_last data = true →
    0 <= quad_pos <= 3 → 0 <= pads → quad_pos < 2 ∨ quad_pos + pads < 4 →
    match verdict_at ((quad_pos + count_alphabet data) mod 4)
            ((if count_alphabet data =? 0 then pads else 0) + count_pads data)
    with
    | None => ∃ out, a2b_loop data quad_pos leftchar pads bin_data = Ok out
    | Some why =>
        a2b_loop data quad_pos leftchar pads bin_data = Raise (BinasciiError why)
    end.
Proof.
  induction data as [|c rest IH]; intros q l p acc Hpl Hq Hp Hqp.
  - rewrite (a2b_loop_no_alphabet [] q l p acc) by done.
    change (count_alphabet []) with 0. change (count_pads []) with 0.
    rewrite Z.add_0_r, Z.mod_small by lia. cbn [Z.eqb].
    destruct (verdict_at q (p + 0)); eauto.
  - cbn [pads_last] in Hpl. destruct (is_pad c) eqn:Hpad.
    + assert (Hna : forallb (λ d, negb (in_alphabet d)) (c :: rest) = true).
      { cbn [forallb]. rewrite Hpl, andb_true_r. unfold in_alphabet.
        by rewrite Hpad. }
      assert (Hn : count_alphabet (c :: rest) = 0).
      { unfold count_alphabet. rewrite forallb_forall in Hna.
        replace (List.filter in_alphabet (c :: rest)) with (@nil Z); [done|].
        symmetry. clear -Hna. induction (c :: rest) as [|x xs IHxs]; [done|].
        cbn [List.filter]. rewrite (proj1 (negb_true_iff _) (Hna x (or_introl eq_refl))).
        apply IHxs. intros y Hy. apply Hna. by right. }
      rewrite Hn, Z.add_0_r, Z.mod_small by lia. cbn [Z.eqb].
      rewrite (a2b_loop_no_alphabet (c :: rest) q l p acc) by done.
      destruct (verdict_at q (p + count_pads (c :: rest))); eauto.
    + assert (Hpads : count_pads (c :: rest) = count_pads rest).
      { unfold count_pads. cbn [List.filter]. by rewrite Hpad. }
      destruct (in_alphabet c) eqn:Hal.
      * assert (Hn : count_alphabet (c :: rest) = 1 + count_alphabet rest).
        { unfold count_alphabet. cbn [List.filter]. rewrite Hal.
          cbn [length]. lia. }
        assert (Hn0 : 0 <= count_alphabet rest) by (unfold count_alphabet; lia).
        rewrite Hn, Hpads. destruct (Z.eqb_spec (1 + count_alphabet rest) 0); [lia|].
        rewrite a2b_loop_alphabet by done. cbv zeta.
        assert (Hstep : ∀ q1 l1 acc1,
                  (q + (1 + count_alphabet rest)) mod 4
                    = (q1 + count_alphabet rest) mod 4 →
                  0 <= q1 <= 3 →
                  match verdict_at ((q + (1 + count_alphabet rest)) mod 4)
                          (0 + count_pads rest) with
                  | None => ∃ out, a2b_loop rest q1 l1 0 acc1 = Ok out
                  | Some why => a2b_loop rest q1 l1 0 acc1 = Raise (BinasciiError why)
                  end).
        { intros q1 l1 acc1 -> Hq1.
          pose proof (IH q1 l1 0 acc1 Hpl Hq1 ltac:(lia) ltac:(lia)) as Hrec.
          by destruct (count_alphabet rest =? 0). }
        destruct (Z.eqb_spec q 0) as [->|]; [apply Hstep; [f_equal; lia|lia]|].
        destruct (Z.eqb_spec q 1) as [->|]; [apply Hstep; [f_equal; lia|lia]|].
        destruct (Z.eqb_spec q 2) as [->|]; [apply Hstep; [f_equal; lia|lia]|].
        apply Hstep; [|lia]. replace q with 3 by lia.
        Z.div_mod_to_equations. lia.
      * assert (Hn : count_alphabet (c :: rest) = count_alphabet rest).
        { unfold count_alphabet. cbn [List.filter]. by rewrite Hal. }
        rewrite Hn, Hpads, a2b_loop_skip; [by apply IH| |].
        -- intros ->. discriminate.
        -- unfold in_alphabet in Hal. rewrite Hpad in Hal.
           cbn [negb andb] in Hal. by apply Z.ltb_ge.
Qed.

(** The decoder on an ASCII text in which the pads come last. *)
Lemma b64decode_pads_last (s : string) :
  forallb (λ c, c <? 128) (code_points s) = true →
  pads_last (code_points s) = true →
  match decode_verdict (code_points s) with
  | None => ∃ data, b64decode s = Ok data
  | Some why => b64decode s = Raise (BinasciiError why)
  end.
Proof.
  intros Hascii Hpl. unfold b64decode, a2b_base64, decode_verdict.
  rewrite Hascii.
  pose proof (a2b_loop_pads_last (code_points s) 0 0 0 [] Hpl
                ltac:(lia) ltac:(lia) ltac:(lia)) as H.
  rewrite Z.add_0_l in H.
  by destruct (count_alphabet (code_points s) =? 0).
Qed.

Lemma b64decode_not_ascii (s : string) :
  forallb (λ c, c <? 128) (code_points s) = false →
  b64decode s =
    Raise (ValueError "string argument should contain only ASCII characters").
Proof. intros Hascii. unfold b64decode. by rewrite Hascii. Qed.

End Decoder.

(** ** The file system *)

Section FileSystem.
Import os Worlds.

Lemma dirname_snoc (p : path) (c : string) : dirname (p ++ [c]) = p.
Proof. apply removelast_last. Qed.

Lemma dirname_ne (p : path) : p ≠ [] → dirname p ≠ p.
Proof.
  destruct p as [|c p'] using rev_ind; [done|]. intros _.
  rewrite dirname_snoc. intros Heq.
  apply (f_equal length) in Heq. rewrite length_app in Heq. cbn in Heq. lia.
Qed.

Lemma stat_insert (p q : path) (n : node) m out :
  p ≠ [] →
  stat (World (<[p := n]> m) out) q =
    if decide (p = q) then Some n else stat (World m out) q.
Proof.
  intros Hp. destruct q as [|c q'].
  - cbn. by case_decide.
  - cbn [stat fs]. case_decide as Hpq.
    + subst p. apply lookup_insert_eq.
    + by apply lookup_insert_ne.
Qed.

Lemma stat_None_nonroot (w : world) (p : path) : stat w p = None → p ≠ [].
Proof. by intros H ->. Qed.

Lemma dirs_added_refl (w : world) : dirs_added w w.
Proof. split; [done|]. intros q. by left. Qed.

Lemma dirs_added_trans (w1 w2 w3 : world) :
  dirs_added w1 w2 → dirs_added w2 w3 → dirs_added w1 w3.
Proof.
  intros [Ho1 H1] [Ho2 H2]. split; [congruence|]. intros q.
  destruct (H1 q) as [E1|[N1 D1]], (H2 q) as [E2|[N2 D2]].
  - left. congruence.
  - right. split; congruence.
  - right. split; congruence.
  - congruence.
Qed.

(** Files are neither created nor changed when directories are added. *)
Lemma dirs_added_files (w w' : world) (q : path) (d : bytes) :
  dirs_added w w' → stat w' q = Some (File d) ↔ stat w q = Some (File d).
Proof.
  intros [_ H]. destruct (H q) as [E|[N D]].
  - by rewrite E.
  - rewrite N, D. split; discriminate.
Qed.

Lemma dirs_added_dir (w w' : world) (q : path) :
  dirs_added w w' → stat w q = Some Dir → stat w' q = Some Dir.
Proof. intros [_ H] Hq. destruct (H q) as [E|[N D]]; congruence. Qed.

(** What a successful [mkdir] does. *)
Lemma mkdir_inv (p : path) (w w' : world) (r : result unit) :
  mkdir p w = (w', r) →
  (r = Ok tt ∧ p ≠ [] ∧ stat w p = None ∧ stat w (dirname p) = Some Dir ∧
   w' = World (<[p := Dir]> (fs w)) (stdout w))
  ∨ (w' = w ∧ ∃ e, r = Raise e ∧ is_OSError e = true).
Proof.
  unfold mkdir. destruct (stat w (dirname p)) as [[|d]|] eqn:Hpar.
  - destruct (stat w p) as [n|] eqn:Hp; intros [= <- <-].
    + right. eauto.
    + left. repeat split; try done. by eapply stat_None_nonroot.
  - intros [= <- <-]. right. eauto.
  - intros [= <- <-]. right. eauto.
Qed.

Lemma mkdir_new_dirs_added (p : path) (w : world) :
  stat w p = None →
  dirs_added w (World (<[p := Dir]> (fs w)) (stdout w)).
Proof.
  intros Hp. pose proof (stat_None_nonroot _ _ Hp) as Hne.
  split; [done|]. intros q. rewrite stat_insert by done.
  destruct w as [m out]. cbn [fs stdout]. case_decide as Hpq.
  - subst q. by right.
  - by left.
Qed.

Lemma mkdir_new_wf (p : path) (w : world) :
  fs_wf w → stat w p = None → stat w (dirname p) = Some Dir →
  fs_wf (World (<[p := Dir]> (fs w)) (stdout w)).
Proof.
  intros Hwf Hp Hpar. pose proof (stat_None_nonroot _ _ Hp) as Hne.
  intros q n Hq. cbn [fs] in Hq.
  eapply dirs_added_dir; [by apply mkdir_new_dirs_added|].
  apply lookup_insert_Some in Hq as [[<- <-]|[Hpq Hq]]; [done|].
  by eapply Hwf.
Qed.

(** The last statement of [makedirs] adds at most the directory [name]. *)
Lemma mkdir_unless_exists_inv (name : path) (ok : bool) (w w' : world)
    (r : result unit) :
  mkdir_unless_exists name ok w = (w', r) →
  (r = Ok tt ∧ name ≠ [] ∧ stat w name = None ∧
   stat w (dirname name) = Some Dir ∧
   w' = World (<[name := Dir]> (fs w)) (stdout w))
  ∨ (w' = w ∧ r = Ok tt ∧ ok = true ∧ stat w name = Some Dir)
  ∨ (w' = w ∧ ∃ e, r = Raise e).
Proof.
  unfold mkdir_unless_exists, try_except.
  destruct (mkdir name w) as [w1 r1] eqn:Hmk.
  apply mkdir_inv in Hmk as [(-> & Hne & Hp & Hpar & ->)|(-> & e & -> & He)].
  - intros [= <- <-]. by left.
  - rewrite He. unfold bind, path_isdir.
    destruct ok; cbn [negb orb].
    + destruct (stat w name) as [[|d]|] eqn:Hn; cbn [negb];
        intros [= <- <-]; eauto 10.
    + intros [= <- <-]. eauto 10.
Qed.

Lemma mkdir_unless_exists_existing (name : path) (w : world) :
  stat w name = Some Dir → stat w (dirname name) = Some Dir →
  mkdir_unless_exists name true w = (w, Ok tt).
Proof.
  intros Hn Hpar.
  unfold mkdir_unless_exists, try_except, mkdir. rewrite Hpar, Hn.
  cbn [is_OSError]. unfold bind, path_isdir. by rewrite Hn.
Qed.

Lemma mkdir_unless_exists_fresh (name : path) (w : world) :
  stat w (dirname name) = Some Dir → (∀ d, stat w name ≠ Some (File d)) →
  ∃ w', mkdir_unless_exists name true w = (w', Ok tt).
Proof.
  intros Hpar Hnf. destruct (stat w name) as [[|d]|] eqn:Hn.
  - exists w. by apply mkdir_unless_exists_existing.
  - by destruct (Hnf d).
  - eexists. unfold mkdir_unless_exists, try_except, mkdir.
    by rewrite Hpar, Hn.
Qed.

(** Whatever [makedirs] returns, it has only added directories, and it
    keeps the file system well formed. *)
Lemma mkdir_unless_exists_extends (name : path) (ok : bool) (w w' : world)
    (r : result unit) :
  mkdir_unless_exists name ok w = (w', r) →
  dirs_added w w' ∧ (fs_wf w → fs_wf w').
Proof.
  intros [(_ & _ & Hp & Hpar & ->)|[(-> & _)|(-> & _)]]%mkdir_unless_exists_inv.
  - split; [by apply mkdir_new_dirs_added|]. intros Hwf. by apply mkdir_new_wf.
  - split; [apply dirs_added_refl|done].
  - split; [apply dirs_added_refl|done].
Qed.

Lemma makedirs_rev_extends (rname : list string) (ok : bool) :
  ∀ (w w' : world) (r : result unit),
    makedirs_rev rname ok w = (w', r) →
    dirs_added w w' ∧ (fs_wf w → fs_wf w').
Proof.
  induction rname as [|t rh IH]; intros w w' r; cbn [makedirs_rev].
  - unfold bind, ret. apply mkdir_unless_exists_extends.
  - unfold bind at 1. unfold bind at 1, path_exists.
    destruct (stat w (rev rh)) as [n|] eqn:Hhead.
    + unfold ret. apply mkdir_unless_exists_extends.
    + unfold try_except.
      destruct (makedirs_rev rh ok w) as [w1 r1] eqn:Hrec.
      apply IH in Hrec as [Hadd1 Hwf1].
      assert (Hlast : ∀ w' r, mkdir_unless_exists (rev (t :: rh)) ok w1 = (w', r) →
                dirs_added w w' ∧ (fs_wf w → fs_wf w')).
      { intros w2 r2 [Hadd2 Hwf2]%mkdir_unless_exists_extends.
        split; [by eapply dirs_added_trans|auto]. }
      destruct r1 as [[]|e]; [apply Hlast|].
      destruct e; unfold raise, ret; try apply Hlast;
        intros [= <- <-]; by split.
Qed.

(** When [makedirs] returns normally, the directory is there. *)
Lemma makedirs_rev_isdir (rname : list string) (ok : bool) (w w' : world) :
  makedirs_rev rname ok w = (w', Ok tt) → stat w' (rev rname) = Some Dir.
Proof.
  assert (Hlast : ∀ w1, mkdir_unless_exists (rev rname) ok w1 = (w', Ok tt) →
            stat w' (rev rname) = Some Dir).
  { intros w1 [(_ & Hne & _ & _ & ->)|[(-> & _ & _ & Hd)|(_ & e & [=])]]%mkdir_unless_exists_inv.
    - rewrite stat_insert by done. by case_decide.
    - done. }
  destruct rname as [|t rh]; cbn [makedirs_rev].
  - unfold bind, ret. apply Hlast.
  - unfold bind at 1. unfold bind at 1, path_exists.
    destruct (stat w (rev rh)) as [n|]; [unfold ret; apply Hlast|].
    unfold try_except. destruct (makedirs_rev rh ok w) as [w1 [[]|e]];
      [apply Hlast|].
    destruct e; unfold raise, ret; try apply Hlast; discriminate.
Qed.

(** On a directory that exists, [makedirs] with [exist_ok=True] returns
    normally and leaves the world as it is. *)
Lemma makedirs_existing (p : path) (w : world) :
  fs_wf w → stat w p = Some Dir → makedirs p true w = (w, Ok tt).
Proof.
  intros Hwf Hp. unfold makedirs.
  destruct p as [|c p'] using rev_ind.
  - cbn [rev makedirs_rev]. unfold bind, ret.
    by apply mkdir_unless_exists_existing.
  - clear IHp'. rewrite rev_unit. cbn [makedirs_rev].
    assert (Hpar : stat w p' = Some Dir).
    { rewrite <- (dirname_snoc p' c). eapply Hwf.
      destruct (p' ++ [c]) eqn:E; [by destruct p'|]. exact Hp. }
    unfold bind at 1. unfold bind at 1, path_exists.
    rewrite rev_involutive, Hpar. unfold ret.
    replace (rev (c :: rev p')) with (p' ++ [c])
      by (cbn [rev]; by rewrite rev_involutive).
    apply mkdir_unless_exists_existing; [done|by rewrite dirname_snoc].
Qed.

(** [makedirs] succeeds whenever no component of the path is taken by a
    regular file. *)
Lemma makedirs_rev_succeeds (rname : list string) :
  ∀ w, fs_wf w → no_file_on w (rev rname) →
    ∃ w', makedirs_rev rname true w = (w', Ok tt).
Proof.
  induction rname as [|t rh IH]; intros w Hwf Hnf.
  - cbn [makedirs_rev rev]. unfold bind, ret. exists w.
    by apply mkdir_unless_exists_existing.
  - cbn [makedirs_rev]. cbn [rev] in Hnf |- *.
    assert (Hnf_head : no_file_on w (rev rh)).
    { intros q d Hq. apply Hnf. etrans; [exact Hq|]. by apply prefix_app_r. }
    unfold bind at 1. unfold bind at 1, path_exists.
    destruct (stat w (rev rh)) as [n|] eqn:Hhead.
    + unfold ret. apply mkdir_unless_exists_fresh.
      * rewrite dirname_snoc. destruct n as [|d]; [done|].
        by destruct (Hnf_head (rev rh) d).
      * intros d. by apply Hnf.
    + unfold try_except.
      destruct (IH w Hwf Hnf_head) as [w1 Hrec]. rewrite Hrec.
      pose proof (makedirs_rev_isdir _ _ _ _ Hrec) as Hdir.
      apply makedirs_rev_extends in Hrec as [Hadd _].
      apply mkdir_unless_exists_fresh; [by rewrite dirname_snoc|].
      intros d Hd. apply (dirs_added_files _ _ _ _ Hadd) in Hd.
      by apply (Hnf (rev rh ++ [t]) d).
Qed.

End FileSystem.

(** ** The decoder-writer script *)

Section DecoderWriter.
Import os Worlds base64 Shapes create_icon_py.
Local Open Scope Z_scope.

Lemma write_binary_inv (p : path) (data : bytes) (w w' : world) (r : result unit) :
  write_binary p data w = (w', r) →
  (r = Ok tt ∧ p ≠ [] ∧ stat w (dirname p) = Some Dir ∧
   w' = World (<[p := File data]> (fs w)) (stdout w))
  ∨ (w' = w ∧ ∃ e, r = Raise e ∧ is_OSError e = true).
Proof.
  unfold write_binary. destruct (stat w (dirname p)) as [[|d]|] eqn:Hpar.
  - destruct (stat w p) as [[|d]|] eqn:Hp; intros [= <- <-]; eauto 10;
      left; repeat split; try done; intros ->; discriminate.
  - intros [= <- <-]. eauto 10.
  - intros [= <- <-]. eauto 10.
Qed.

Lemma write_binary_ok (p : path) (data : bytes) (w : world) :
  stat w (dirname p) = Some Dir → stat w p ≠ Some Dir →
  write_binary p data w = (World (<[p := File data]> (fs w)) (stdout w), Ok tt).
Proof.
  intros Hpar Hp. unfold write_binary. rewrite Hpar.
  by destruct (stat w p) as [[|d]|].
Qed.

Lemma read_after_write (p : path) (data : bytes) m out :
  p ≠ [] →
  read_binary p (World (<[p := File data]> m) out) =
    (World (<[p := File data]> m) out, Ok data).
Proof.
  intros Hp. unfold read_binary. rewrite stat_insert by done.
  by case_decide.
Qed.

(** What the script does once the text has decoded. *)
Lemma script_decoded (payload : string) (data : bytes) (w : world) :
  b64decode payload = Ok data →
  script payload w =
    (write_binary icon_path data >> print "Icon created successfully.") w.
Proof. intros Hdec. unfold script, bind at 1, lift. by rewrite Hdec. Qed.

(** C2: every well-formed base64 text decodes, and whenever the text
    decodes to [data], the script run on a world where the destination can
    be written ends normally, and in every world the script leaves after a
    normal end, reading the output file back gives exactly [data]. *)
Theorem decode_write_read_roundtrip (payload : string) (w : world) :
  (rfc4648_valid (code_points payload) = true →
   ∃ data, b64decode payload = Ok data) ∧
  ∀ data, b64decode payload = Ok data →
    (stat w (dirname icon_path) = Some Dir → stat w icon_path ≠ Some Dir →
     ∃ w', script payload w = (w', Ok tt)) ∧
    (∀ w', script payload w = (w', Ok tt) →
       read_binary icon_path w' = (w', Ok data)).
Proof.
  split; [apply rfc4648_valid_decodes|]. intros data Hdec.
  rewrite (script_decoded _ _ _ Hdec). split.
  - intros Hpar Hp. unfold bind. rewrite write_binary_ok by done.
    unfold print. by eexists.
  - intros w'. unfold bind.
    destruct (write_binary icon_path data w) as [w1 r1] eqn:Hwr.
    apply write_binary_inv in Hwr as [(-> & Hne & _ & ->)|(_ & e & -> & _)];
      [|discriminate].
    unfold print. cbn [fs stdout]. intros [= <-].
    by apply read_after_write.
Qed.

Lemma decode_write_read_roundtrip_witness :
  ∃ w', script "QUJD" public_world = (w', Ok tt) ∧
        read_binary icon_path w' = (w', Ok [65; 66; 67]).
Proof.
  destruct (decode_write_read_roundtrip "QUJD" public_world) as [Hvalid Hrt].
  destruct (Hvalid eq_refl) as [data Hdec].
  assert (Hdata : data = [65; 66; 67])
    by (vm_compute in Hdec; by injection Hdec).
  subst data. destruct (Hrt _ Hdec) as [Hrun Hread].
  destruct Hrun as [w' Hw']; [by vm_compute|by vm_compute|].
  exists w'. split; [exact Hw'|by apply Hread].
Defined.

(** C6, as the code has it.  When the decoding step raises, the script
    ends with that exception, which is a [ValueError] or its subclass
    [binascii.Error], and the world is the one it started from: no file
    was opened, nothing was printed.  The decoding step raises on a text
    with a non-ASCII character.  On an ASCII text in which no alphabet
    character follows a pad, with n alphabet characters and p pads, it
    raises exactly when n mod 4 = 1 (invalid length), or n mod 4 is 2 or 3
    and n mod 4 + p < 4 (incorrect padding); the other characters do not
    count. *)
Theorem decode_failure_changes_nothing (payload : string) (w : world) :
  (∀ e, b64decode payload = Raise e →
        script payload w = (w, Raise e) ∧ is_ValueError e = true) ∧
  (forallb (λ c, c <? 128) (code_points payload) = false →
   b64decode payload =
     Raise (ValueError "string argument should contain only ASCII characters")) ∧
  (forallb (λ c, c <? 128) (code_points payload) = true →
   pads_last (code_points payload) = true →
   match decode_verdict (code_points payload) with
   | Some why => b64decode payload = Raise (BinasciiError why)
   | None => ∃ data, b64decode payload = Ok data
   end).
Proof.
  split; [|split].
  - intros e Hdec. split; [|by eapply b64decode_raises].
    unfold script, bind, lift. by rewrite Hdec.
  - apply b64decode_not_ascii.
  - intros Hascii Hpl. pose proof (b64decode_pads_last payload Hascii Hpl) as H.
    by destruct (decode_verdict (code_points payload)).
Qed.

Lemma decode_failure_changes_nothing_witness :
  (script "QUJDQ" public_world = (public_world, Raise (BinasciiError InvalidLength))
   ∧ is_ValueError (BinasciiError InvalidLength) = true) ∧
  b64decode "QUJDQU=" = Raise (BinasciiError IncorrectPadding) ∧
  b64decode (String (Ascii.ascii_of_nat 233) "QUJD") =
    Raise (ValueError "string argument should contain only ASCII characters").
Proof.
  split; [|split].
  - apply (decode_failure_changes_nothing "QUJDQ" public_world). by vm_compute.
  - apply (proj2 (proj2 (decode_failure_changes_nothing "QUJDQU=" public_world)));
      by vm_compute.
  - apply (proj1 (proj2 (decode_failure_changes_nothing
                           (String (Ascii.ascii_of_nat 233) "QUJD") public_world))).
    by vm_compute.
Defined.

(** C6 as stated fails: the text [QUJD!] is not well-formed base64, and
    yet the decoding step drops the [!] and returns the bytes of [ABC],
    which the script writes. *)
Lemma malformed_payload_is_decoded_and_written :
  rfc4648_valid (code_points "QUJD!") = false ∧
  b64decode "QUJD!" = Ok [65; 66; 67] ∧
  (script "QUJD!" public_world).2 = Ok tt ∧
  stat (script "QUJD!" public_world).1 icon_path = Some (File [65; 66; 67]).
Proof. repeat split; by vm_compute. Qed.

Lemma icon_base64_decoded : b64decode icon_base64 = Ok icon_data.
Proof. by vm_compute. Qed.

(** C9: the text embedded in the script is well-formed base64 and
    decodes, to 191 bytes that start with the PNG signature, so the script
    itself never ends with a decoding error: it ends normally or with an
    [OSError] from opening the file. *)
Theorem embedded_payload_decodes :
  rfc4648_valid (code_points icon_base64) = true ∧
  (∃ data, b64decode icon_base64 = Ok data ∧ length data = 191%nat ∧
           take 8 data = [137; 80; 78; 71; 13; 10; 26; 10]) ∧
  ∀ w, match (main w).2 with
       | Ok _ => True
       | Raise e => is_OSError e = true ∧ is_ValueError e = false
       end.
Proof.
  split; [by vm_compute|]. split.
  - exists icon_data. split; [apply icon_base64_decoded|]. by vm_compute.
  - intros w. unfold main.
    rewrite (script_decoded _ _ _ icon_base64_decoded). unfold bind.
    destruct (write_binary icon_path icon_data w) as [w1 r1] eqn:Hwr.
    apply write_binary_inv in Hwr as [(-> & _)|(_ & e & -> & He)]; cbn.
    + done.
    + split; [done|]. by destruct e.
Qed.

End DecoderWriter.

(** ** The drawer script *)

Section Drawer.
Import os Worlds create_new_icons_py.
Local Open Scope Z_scope.

Variable png_encode : Image → bytes.

(** [create_icon] is the save of the raster, or the error of
    [Image.new]. *)
Lemma create_icon_unfold (size : Z) (filename : path) (w : world) :
  create_icon png_encode size filename w =
    match draw_icon size with
    | Ok img => save png_encode img filename w
    | Raise e => (w, Raise e)
    end.
Proof. unfold create_icon, bind, lift. by destruct (draw_icon size). Qed.

(** Under a PNG file name, saving an image that has pixels is opening
    the file and writing the encoding. *)
Lemma save_png (img : Image) (filename : path) (w : world) :
  save_format filename = Some "PNG" → is_empty img = false →
  save png_encode img filename w = write_binary filename (png_encode img) w.
Proof.
  intros Hfmt Hpix. unfold save. rewrite Hfmt, Hpix.
  unfold bind, path_exists.
  by destruct (write_binary filename (png_encode img) w) as [w1 [[]|e]].
Qed.

(** C8: the directory is made first and idempotently.  From a well-formed
    file system [makedirs] adds directories only; if the icons directory
    is there already it returns normally with the world unchanged; if no
    component of its path is a regular file it returns normally; after a
    normal return the directory exists, a second call is a no-op, and the
    three icons are then written in that world; after an error the script
    stops before writing any icon. *)
Theorem icons_dir_made_first (w : world) :
  fs_wf w →
  ∃ w1 r,
    makedirs icons_dir true w = (w1, r) ∧
    dirs_added w w1 ∧
    (stat w icons_dir = Some Dir → w1 = w ∧ r = Ok tt) ∧
    (no_file_on w icons_dir → r = Ok tt) ∧
    match r with
    | Ok _ =>
        stat w1 icons_dir = Some Dir ∧
        makedirs icons_dir true w1 = (w1, Ok tt) ∧
        main png_encode w = generate_icons png_encode w1
    | Raise e => main png_encode w = (w1, Raise e)
    end.
Proof.
  intros Hwf.
  destruct (makedirs icons_dir true w) as [w1 r] eqn:Hmk.
  exists w1, r. split; [done|].
  pose proof Hmk as Hext. unfold makedirs in Hext.
  apply makedirs_rev_extends in Hext as [Hadd Hwf1].
  split; [done|]. split; [|split].
  - intros Hdir. rewrite makedirs_existing in Hmk by done.
    by injection Hmk as <- <-.
  - intros Hnf.
    destruct (makedirs_rev_succeeds (rev icons_dir) w Hwf) as [w2 Hok].
    { by rewrite rev_involutive. }
    unfold makedirs in Hmk. rewrite Hok in Hmk. by injection Hmk as _ <-.
  - destruct r as [[]|e].
    + assert (Hdir : stat w1 icons_dir = Some Dir).
      { rewrite <- (rev_involutive icons_dir).
        by eapply makedirs_rev_isdir. }
      split; [done|]. split; [apply makedirs_existing; auto|].
      unfold main, bind at 1. by rewrite Hmk.
    + unfold main, bind at 1. by rewrite Hmk.
Qed.

End Drawer.

(** ** Sample runs of the drawer script *)

Section SampleRuns.
Import os Worlds create_new_icons_py.
Local Open Scope Z_scope.

Lemma bare_world_wf : fs_wf bare_world.
Proof. intros p n H. cbn in H. by rewrite lookup_empty in H. Qed.

Lemma bare_world_no_file (p : path) : no_file_on bare_world p.
Proof. intros q d _. destruct q; [done|]. cbn. by rewrite lookup_empty. Qed.

(** On an empty disk the script makes the whole directory chain, writes
    the three icons and prints its message. *)
Example main_on_bare_world :
  let out := main width_encoder bare_world in
  out.2 = Ok tt ∧
  stat out.1 icons_dir = Some Dir ∧
  stat out.1 icon16 = Some (File [16]) ∧
  stat out.1 icon48 = Some (File [48]) ∧
  stat out.1 icon128 = Some (File [128]) ∧
  stdout out.1 = ["Icons generated successfully!"].
Proof. by vm_compute. Qed.

(** With [client/public] missing, the decoder-writer fails on [open]. *)
Example decoder_writer_on_bare_world :
  create_icon_py.main bare_world
    = (bare_world, Raise (FileNotFoundError create_icon_py.icon_path)).
Proof. by vm_compute. Qed.

Lemma icons_dir_made_first_witness :
  ∃ w1,
    makedirs icons_dir true bare_world = (w1, Ok tt) ∧
    dirs_added bare_world w1 ∧
    stat w1 icons_dir = Some Dir ∧
    makedirs icons_dir true w1 = (w1, Ok tt) ∧
    main width_encoder bare_world = generate_icons width_encoder w1.
Proof.
  destruct (icons_dir_made_first width_encoder bare_world bare_world_wf)
    as (w1 & r & Hmk & Hadd & _ & Hok & Hr).
  rewrite (Hok (bare_world_no_file icons_dir)) in Hmk, Hr.
  exists w1. destruct Hr as (Hdir & Hagain & Hmain).
  exact (conj Hmk (conj Hadd (conj Hdir (conj Hagain Hmain)))).
Defined.

End SampleRuns.

(** ** More of the drawer's geometry *)

Section DrawerShapes.
Import create_new_icons_py Geometry Shapes.
Local Open Scope Z_scope.

Local Ltac floor_arith :=
  cbn [lookup_total list_lookup_total] in *;
  Z.div_mod_to_equations; lia.

(** The shadow is the body moved down and right by the shadow offset,
    which never exceeds the margin, so for every size S >= 0 both the
    body and the shadow lie within the S by S pixel grid. *)
Theorem shadow_and_body_in_canvas (S : Z) :
  0 <= S →
  shadow_coords S = map (λ c, c + shadow_offset S) (rect_coords S) ∧
  shadow_offset S <= padding S ∧
  inside (canvas S) (rect_coords S) ∧
  inside (canvas S) (shadow_coords S).
Proof.
  intros HS. split; [reflexivity|].
  unfold shadow_coords, rect_coords, shadow_offset, padding, canvas.
  cbn [lookup_total list_lookup_total inside].
  repeat split; floor_arith.
Qed.

Lemma shadow_and_body_in_canvas_witness :
  shadow_coords 48 = map (λ c, c + shadow_offset 48) (rect_coords 48) ∧
  shadow_offset 48 <= padding 48 ∧
  inside (canvas 48) (rect_coords 48) ∧
  inside (canvas 48) (shadow_coords 48).
Proof. apply (shadow_and_body_in_canvas 48). lia. Defined.

(** Where floor division collapses a measurement to zero: the margin
    below size 8, the shadow offset below 16 (then the shadow box is the
    body box, and the body hides it), the stroke width below 12 and the
    corner radius below 5. *)
Theorem collapse_thresholds (S : Z) :
  0 <= S →
  (padding S = 0 ↔ S < 8) ∧
  (shadow_offset S = 0 ↔ S < 16) ∧
  (shadow_coords S = rect_coords S ↔ S < 16) ∧
  (S / 12 = 0 ↔ S < 12) ∧
  (S / 5 = 0 ↔ S < 5).
Proof.
  intros HS. unfold shadow_coords, rect_coords, shadow_offset, padding.
  cbn [lookup_total list_lookup_total].
  repeat split; try (intros H; floor_arith).
  - intros [= H _]. floor_arith.
  - intros H. replace (S / 16) with 0 by floor_arith.
    by rewrite !Z.add_0_r.
Qed.

Lemma collapse_thresholds_witness :
  (padding 7 = 0 ↔ 7 < 8) ∧
  (shadow_offset 7 = 0 ↔ 7 < 16) ∧
  (shadow_coords 7 = rect_coords 7 ↔ 7 < 16) ∧
  (7 / 12 = 0 ↔ 7 < 12) ∧
  (7 / 5 = 0 ↔ 7 < 5).
Proof. apply (collapse_thresholds 7). lia. Defined.

(** For every size S >= 0 the corner radius S // 5 is at most half the
    side of the box it rounds, for the shadow box and for the body box:
    the corner arcs never overlap, in any raster the drawer returns. *)
Theorem corner_radius_fits (S : Z) :
  0 <= S →
  corners_fit (RoundedRectangle (shadow_coords S) (S / 5) shadow_fill) ∧
  corners_fit (RoundedRectangle (rect_coords S) (S / 5) note_yellow) ∧
  ∀ img, draw_icon S = Ok img → Forall corners_fit (im_ops img).
Proof.
  intros HS.
  assert (Hshadow : corners_fit
            (RoundedRectangle (shadow_coords S) (S / 5) shadow_fill)).
  { unfold shadow_coords, rect_coords, shadow_offset, padding.
    cbn [lookup_total list_lookup_total corners_fit]. split; floor_arith. }
  assert (Hbody : corners_fit
            (RoundedRectangle (rect_coords S) (S / 5) note_yellow)).
  { unfold rect_coords, padding. cbn [corners_fit]. split; floor_arith. }
  split; [done|]. split; [done|].
  intros img [_ ->]%draw_icon_inv. cbn [im_ops drawn].
  constructor; [exact Hshadow|]. constructor; [exact Hbody|].
  constructor; [exact I|]. constructor; [exact I|]. constructor.
Qed.

Lemma corner_radius_fits_witness :
  corners_fit (RoundedRectangle (shadow_coords 16) (16 / 5) shadow_fill) ∧
  corners_fit (RoundedRectangle (rect_coords 16) (16 / 5) note_yellow) ∧
  Forall corners_fit (im_ops (drawn 16)).
Proof.
  destruct (corner_radius_fits 16 ltac:(lia)) as (Hshadow & Hbody & Hops).
  split; [exact Hshadow|]. split; [exact Hbody|]. apply Hops. reflexivity.
Defined.

(** For every size S >= 1 the two lines have positive length, and the
    stroke width S // 12 is at most the distance between the two lines,
    at most the distance from the body's top edge to the first line and
    at most the distance from the second line to the body's bottom edge. *)
Theorem strokes_have_room (S : Z) :
  1 <= S →
  line_x_start S < line_x_end S ∧
  S / 12 <= line_spacing S ∧
  S / 12 <= line_y_start S - rect_coords S !!! 1%nat ∧
  S / 12 <= rect_coords S !!! 3%nat - (line_y_start S + line_spacing S).
Proof.
  intros HS.
  unfold line_x_start, line_x_end, line_y_start, line_spacing, rect_coords, padding.
  repeat split; floor_arith.
Qed.

Lemma strokes_have_room_witness :
  line_x_start 1 < line_x_end 1 ∧
  1 / 12 <= line_spacing 1 ∧
  1 / 12 <= line_y_start 1 - rect_coords 1 !!! 1%nat ∧
  1 / 12 <= rect_coords 1 !!! 3%nat - (line_y_start 1 + line_spacing 1).
Proof. apply (strokes_have_room 1). lia. Defined.

End DrawerShapes.

(** ** More of the decoder *)

Section DecoderMore.
Import base64 Shapes.
Local Open Scope Z_scope.

(** Characters that are neither in the alphabet nor the pad can be taken
    out of the text without changing what the loop does. *)
Lemma a2b_loop_filter (data : list Z) :
  ∀ quad_pos leftchar pads bin_data,
    a2b_loop (List.filter significant data) quad_pos leftchar pads bin_data
    = a2b_loop data quad_pos leftchar pads bin_data.
Proof.
  induction data as [|c rest IH]; intros q l p acc; [done|].
  cbn [List.filter]. unfold significant at 1.
  destruct (is_pad c) eqn:Hpad; cbn [orb].
  - apply is_pad_eq in Hpad as ->. cbn [a2b_loop].
    change (BASE64_PAD =? BASE64_PAD) with true. cbv iota.
    repeat case_match; try done; apply IH.
  - destruct (in_alphabet c) eqn:Hal.
    + rewrite !a2b_loop_alphabet by done. cbv zeta.
      repeat case_match; apply IH.
    + rewrite IH. symmetry. apply a2b_loop_skip.
      * intros ->. discriminate.
      * unfold in_alphabet in Hal. rewrite Hpad in Hal. cbn [negb andb] in Hal.
        by apply Z.ltb_ge.
Qed.

Lemma filter_keeps_ascii (data : list Z) :
  forallb (λ c, c <? 128) data = true →
  forallb (λ c, c <? 128) (List.filter significant data) = true.
Proof.
  rewrite !forallb_forall. intros H c [Hc _]%filter_In. by apply H.
Qed.

(** The loop writes at most three bytes for four characters read. *)
Lemma a2b_loop_length (data : list Z) :
  ∀ quad_pos leftchar pads bin_data out,
    a2b_loop data quad_pos leftchar pads bin_data = Ok out →
    (4 * length out ≤
     4 * length bin_data + 3 * length data +
     (if (quad_pos =? 0)%Z then 0 else if (quad_pos =? 1)%Z then 3
      else if (quad_pos =? 2)%Z then 2 else 1))%nat.
Proof.
  induction data as [|c rest IH]; intros q l p acc out; cbn [a2b_loop].
  - repeat case_match; intros [= <-]; cbn [length]; lia.
  - repeat case_match; try (intros [= <-]; cbn [length]; lia);
      intros Hrec%IH; rewrite ?length_app in Hrec; cbn in Hrec;
      rewrite ?H, ?H0, ?H1, ?H2, ?H3, ?H4 in Hrec; cbn [length]; lia.
Qed.

Lemma length_code_points (s : string) :
  length (code_points s) = String.length s.
Proof.
  unfold code_points. rewrite length_map.
  induction s as [|a s IH]; cbn; [done|]. by rewrite IH.
Qed.

Lemma b64decode_length (s : string) (data : bytes) :
  b64decode s = Ok data → (4 * length data ≤ 3 * String.length s)%nat.
Proof.
  unfold b64decode, a2b_base64. case_match; [|discriminate].
  intros Hdec%a2b_loop_length. rewrite length_code_points in Hdec.
  cbn in Hdec. lia.
Qed.

Lemma b64decode_filter (s s' : string) :
  forallb (λ c, c <? 128) (code_points s) = true →
  code_points s' = List.filter significant (code_points s) →
  b64decode s' = b64decode s.
Proof.
  intros Hascii Hs'. unfold b64decode, a2b_base64.
  rewrite Hs', Hascii, (filter_keeps_ascii _ Hascii).
  apply a2b_loop_filter.
Qed.

End DecoderMore.

(** ** More of the file system *)

Section FileSystemMore.
Import os Worlds.

(** A run that returns normally, as the pair of its world and result. *)
Lemma run_returns {A} (run : world * result A) (a : A) :
  run.2 = Ok a → run = (run.1, Ok a).
Proof. destruct run as [w r]. cbn. by intros ->. Qed.

(** A successful write changes the one file and nothing else. *)
Lemma write_binary_frame (p : path) (data : bytes) (w w' : world) :
  write_binary p data w = (w', Ok tt) →
  stat w' p = Some (File data) ∧
  (∀ q, q ≠ p → stat w' q = stat w q) ∧
  stdout w' = stdout w.
Proof.
  intros [(_ & Hne & _ & ->)|(_ & e & [=] & _)]%write_binary_inv.
  destruct w as [m out]. cbn [fs stdout]. split; [|split; [|done]].
  - rewrite stat_insert by done. by case_decide.
  - intros q Hq. rewrite stat_insert by done. by case_decide.
Qed.

Lemma write_binary_ok_iff (p : path) (data : bytes) (w : world) :
  (write_binary p data w).2 = Ok tt ↔
  stat w (dirname p) = Some Dir ∧ stat w p ≠ Some Dir.
Proof.
  split.
  - unfold write_binary.
    destruct (stat w (dirname p)) as [[|d]|]; try discriminate.
    destruct (stat w p) as [[|d]|]; try discriminate; by intros _.
  - intros [Hpar Hp]. by rewrite write_binary_ok.
Qed.

(** Writing a file keeps the file system well formed. *)
Lemma write_binary_wf (p : path) (data : bytes) (w w' : world) (r : result unit) :
  fs_wf w → write_binary p data w = (w', r) → fs_wf w'.
Proof.
  intros Hwf Hwr. pose proof Hwr as Hinv.
  apply write_binary_inv in Hinv as [(-> & Hne & Hpar & ->)|(-> & _)]; [|done].
  assert (Hp : stat w p ≠ Some Dir).
  { apply (write_binary_ok_iff p data w). by rewrite Hwr. }
  intros q n Hq. cbn [fs] in Hq.
  destruct w as [m out]. cbn [fs stdout] in *.
  rewrite stat_insert by done. case_decide as Hpq.
  - (* something lives in [p], which is therefore a directory *)
    apply lookup_insert_Some in Hq as [[<- <-]|[Hne' Hq]].
    + by destruct (dirname_ne p Hne).
    + apply Hwf in Hq. cbn [fs] in Hq. rewrite <- Hpq in Hq. by destruct Hp.
  - apply lookup_insert_Some in Hq as [[<- <-]|[Hne' Hq]]; [done|].
    by apply Hwf in Hq.
Qed.

(** [makedirs] touches nothing but the prefixes of the name. *)
Lemma mkdir_unless_exists_frame (name : path) (ok : bool) (w w' : world)
    (r : result unit) :
  mkdir_unless_exists name ok w = (w', r) →
  ∀ q, q ≠ name → stat w' q = stat w q.
Proof.
  intros [(_ & Hne & _ & _ & ->)|[(-> & _)|(-> & _)]]%mkdir_unless_exists_inv;
    try done.
  intros q Hq. destruct w as [m out]. cbn [fs stdout].
  rewrite stat_insert by done. by case_decide.
Qed.

Lemma makedirs_rev_frame (rname : list string) (ok : bool) :
  ∀ (w w' : world) (r : result unit),
    makedirs_rev rname ok w = (w', r) →
    ∀ q, ¬ q `prefix_of` rev rname → stat w' q = stat w q.
Proof.
  induction rname as [|t rh IH]; intros w w' r; cbn [makedirs_rev].
  - unfold bind, ret. intros Hmk q Hq.
    eapply mkdir_unless_exists_frame; [done|]. by intros ->.
  - assert (Hlast : ∀ w1 w' r,
              mkdir_unless_exists (rev (t :: rh)) ok w1 = (w', r) →
              ∀ q, ¬ q `prefix_of` rev (t :: rh) → stat w' q = stat w1 q).
    { intros w1 w2 r2 Hmk q Hq.
      eapply mkdir_unless_exists_frame; [done|]. by intros ->. }
    unfold bind at 1. unfold bind at 1, path_exists.
    destruct (stat w (rev rh)) as [n|] eqn:Hhead; [unfold ret; apply Hlast|].
    unfold try_except.
    destruct (makedirs_rev rh ok w) as [w1 r1] eqn:Hrec.
    assert (Hhead_frame : ∀ q, ¬ q `prefix_of` rev (t :: rh) → stat w1 q = stat w q).
    { intros q Hq. eapply IH; [done|]. intros Hpre. apply Hq.
      cbn [rev]. by apply prefix_app_r. }
    assert (Hboth : ∀ w' r, mkdir_unless_exists (rev (t :: rh)) ok w1 = (w', r) →
              ∀ q, ¬ q `prefix_of` rev (t :: rh) → stat w' q = stat w q).
    { intros w2 r2 Hmk q Hq. rewrite <- (Hhead_frame q Hq). by eapply Hlast. }
    destruct r1 as [[]|e]; [apply Hboth|].
    destruct e; unfold raise, ret; try apply Hboth;
      intros [= <- <-]; exact Hhead_frame.
Qed.

(** In a well-formed file system everything above a directory is a
    directory. *)
Lemma wf_ancestors (w : world) (p : path) :
  fs_wf w → stat w p = Some Dir → ∀ q, q `prefix_of` p → stat w q = Some Dir.
Proof.
  intros Hwf. induction p as [|c p' IH] using rev_ind; intros Hp q [k Hk].
  - symmetry in Hk. apply app_eq_nil in Hk as [-> _]. done.
  - destruct k as [|c' k' _] using rev_ind.
    + rewrite app_nil_r in Hk. by subst q.
    + rewrite app_assoc in Hk. apply app_inj_tail in Hk as [-> _].
      apply IH; [|by apply prefix_app_r].
      rewrite <- (dirname_snoc (q ++ k') c). eapply Hwf.
      destruct ((q ++ k') ++ [c]) eqn:E; [by destruct (q ++ k')|]. exact Hp.
Qed.

(** A normal return of [makedirs] means that no component of the name
    was a regular file. *)
Lemma makedirs_ok_no_file (p : path) (w w' : world) :
  fs_wf w → makedirs p true w = (w', Ok tt) → no_file_on w p.
Proof.
  intros Hwf Hmk q d Hq Hfile. unfold makedirs in Hmk.
  pose proof (makedirs_rev_isdir _ _ _ _ Hmk) as Hdir.
  rewrite rev_involutive in Hdir.
  apply makedirs_rev_extends in Hmk as [Hadd Hwf'].
  apply (dirs_added_files _ _ _ _ Hadd) in Hfile.
  rewrite (wf_ancestors w' p (Hwf' Hwf) Hdir q Hq) in Hfile. discriminate.
Qed.

Lemma makedirs_no_file_ok (p : path) (w : world) :
  fs_wf w → no_file_on w p → ∃ w', makedirs p true w = (w', Ok tt).
Proof.
  intros Hwf Hnf. apply makedirs_rev_succeeds; [done|].
  by rewrite rev_involutive.
Qed.

(** Whatever [makedirs] raises is an [OSError]. *)
Lemma mkdir_unless_exists_raises (name : path) (ok : bool) (w w' : world)
    (e : exn) :
  mkdir_unless_exists name ok w = (w', Raise e) → is_OSError e = true.
Proof.
  unfold mkdir_unless_exists, try_except.
  destruct (mkdir name w) as [w1 r1] eqn:Hmk.
  apply mkdir_inv in Hmk as [(-> & _)|(-> & e' & -> & He)]; [discriminate|].
  rewrite He. unfold bind, path_isdir, raise, ret.
  destruct (negb ok || negb _); intros [= <- <-]; done.
Qed.

Lemma makedirs_rev_raises (rname : list string) (ok : bool) :
  ∀ (w w' : world) (e : exn),
    makedirs_rev rname ok w = (w', Raise e) → is_OSError e = true.
Proof.
  induction rname as [|t rh IH]; intros w w' e; cbn [makedirs_rev].
  - unfold bind, ret. apply mkdir_unless_exists_raises.
  - unfold bind at 1. unfold bind at 1, path_exists.
    destruct (stat w (rev rh)) as [n|];
      [unfold ret; apply mkdir_unless_exists_raises|].
    unfold try_except.
    destruct (makedirs_rev rh ok w) as [w1 [[]|e1]] eqn:Hrec;
      [apply mkdir_unless_exists_raises|].
    apply IH in Hrec.
    destruct e1; unfold raise, ret; try apply mkdir_unless_exists_raises;
      by intros [= <- <-].
Qed.

(** A regular file in the way stops [makedirs]: when a component of the
    name is a regular file, the call raises an [OSError], whatever
    [exist_ok] allows, and the file is still there. *)
Theorem makedirs_blocked_by_file (p q : path) (d : bytes) (w : world) :
  fs_wf w → q `prefix_of` p → stat w q = Some (File d) →
  ∃ w' e, makedirs p true w = (w', Raise e) ∧ is_OSError e = true ∧
          stat w' q = Some (File d).
Proof.
  intros Hwf Hq Hfile.
  destruct (makedirs p true w) as [w' [[]|e]] eqn:Hmk.
  - by destruct (makedirs_ok_no_file p w w' Hwf Hmk q d).
  - exists w', e. split; [done|]. unfold makedirs in Hmk.
    split; [by eapply makedirs_rev_raises|].
    apply makedirs_rev_extends in Hmk as [Hadd _].
    by apply (dirs_added_files _ _ _ _ Hadd).
Qed.

(** After a normal return of [makedirs] every component of the name is a
    directory, the file system is still well formed, and nothing but the
    components of the name has changed: no other path, no output. *)
Theorem makedirs_builds_chain (p : path) (w w' : world) :
  fs_wf w → makedirs p true w = (w', Ok tt) →
  fs_wf w' ∧
  (∀ q, q `prefix_of` p → stat w' q = Some Dir) ∧
  (∀ q, ¬ q `prefix_of` p → stat w' q = stat w q) ∧
  stdout w' = stdout w.
Proof.
  intros Hwf Hmk. unfold makedirs in Hmk.
  pose proof (makedirs_rev_isdir _ _ _ _ Hmk) as Hdir.
  pose proof (makedirs_rev_frame _ _ _ _ _ Hmk) as Hframe.
  rewrite rev_involutive in Hdir, Hframe.
  apply makedirs_rev_extends in Hmk as [[Hout _] Hwf'].
  split; [auto|]. split; [|done]. by apply wf_ancestors; auto.
Qed.

End FileSystemMore.

(** ** More of the decoder-writer script *)

Section DecoderWriterMore.
Import os Worlds base64 Shapes create_icon_py.
Local Open Scope Z_scope.

Lemma script_undecoded (payload : string) (e : exn) (w : world) :
  b64decode payload = Raise e → script payload w = (w, Raise e).
Proof. intros Hdec. unfold script, bind, lift. by rewrite Hdec. Qed.

(** The three ways the script can end, once the text has decoded. *)
Lemma script_decoded_cases (payload : string) (data : bytes) (w : world) :
  b64decode payload = Ok data →
  (stat w (dirname icon_path) = Some Dir ∧ stat w icon_path ≠ Some Dir ∧
   script payload w =
     (World (<[icon_path := File data]> (fs w))
        (stdout w ++ ["Icon created successfully."]), Ok tt))
  ∨ (¬ (stat w (dirname icon_path) = Some Dir ∧ stat w icon_path ≠ Some Dir) ∧
     ∃ e, is_OSError e = true ∧ script payload w = (w, Raise e)).
Proof.
  intros Hdec. rewrite (script_decoded _ _ _ Hdec). unfold bind.
  destruct (write_binary icon_path data w) as [w1 r1] eqn:Hwr.
  pose proof (write_binary_ok_iff icon_path data w) as Hiff.
  rewrite Hwr in Hiff. cbn [snd] in Hiff.
  apply write_binary_inv in Hwr as [(-> & _ & _ & ->)|(-> & e & -> & He)].
  - left. destruct Hiff as [[Hpar Hp] _]; [done|]. by repeat split.
  - right. split; [|by exists e]. intros H%Hiff. discriminate.
Qed.

(** After a normal run of the script the text has decoded, the output
    file holds exactly the decoded bytes, every other path is as it was,
    and the one message has been printed. *)
Theorem script_result (payload : string) (w w' : world) :
  script payload w = (w', Ok tt) →
  ∃ data, b64decode payload = Ok data ∧
    stat w' icon_path = Some (File data) ∧
    (∀ q, q ≠ icon_path → stat w' q = stat w q) ∧
    stdout w' = stdout w ++ ["Icon created successfully."].
Proof.
  destruct (b64decode payload) as [data|e] eqn:Hdec;
    [|by rewrite (script_undecoded _ _ w Hdec)].
  destruct (script_decoded_cases _ _ w Hdec)
    as [(_ & _ & ->)|(_ & e & He & ->)]; [|discriminate].
  intros [= <-]. exists data. split; [done|].
  rewrite !stat_insert by done. split; [by case_decide|].
  split; [|done]. intros q Hq. rewrite stat_insert by done.
  destruct w. by case_decide.
Qed.

Lemma script_result_witness :
  ∃ data, b64decode "QUJD" = Ok data ∧
    stat (script "QUJD" public_world).1 icon_path = Some (File data) ∧
    (∀ q, q ≠ icon_path →
          stat (script "QUJD" public_world).1 q = stat public_world q) ∧
    stdout (script "QUJD" public_world).1
      = stdout public_world ++ ["Icon created successfully."].
Proof.
  apply (script_result "QUJD" public_world (script "QUJD" public_world).1).
  apply run_returns. by vm_compute.
Defined.

(** The script returns normally only if the text decodes, the directory
    of the output file exists and the output path is not a directory; and
    it prints its message exactly when it returns normally: whatever goes
    wrong, nothing is printed. *)
Theorem script_success_needs (payload : string) (w : world) :
  ((script payload w).2 = Ok tt →
   (∃ data, b64decode payload = Ok data) ∧
   stat w (dirname icon_path) = Some Dir ∧ stat w icon_path ≠ Some Dir) ∧
  stdout (script payload w).1 =
    match (script payload w).2 with
    | Ok _ => stdout w ++ ["Icon created successfully."]
    | Raise _ => stdout w
    end.
Proof.
  destruct (b64decode payload) as [data|e] eqn:Hdec.
  - destruct (script_decoded_cases _ _ w Hdec)
      as [(Hpar & Hp & ->)|(Hno & e & He & ->)]; cbn [fst snd stdout].
    + split; [|done]. intros _. eauto.
    + split; [discriminate|done].
  - rewrite (script_undecoded _ _ w Hdec). cbn [fst snd].
    split; [discriminate|done].
Qed.

Lemma script_success_needs_witness :
  (∃ data, b64decode "QUJD" = Ok data) ∧
  stat public_world (dirname icon_path) = Some Dir ∧
  stat public_world icon_path ≠ Some Dir.
Proof.
  apply (proj1 (script_success_needs "QUJD" public_world)). by vm_compute.
Defined.

(** Running the script again after a normal run succeeds again, leaves
    the file system exactly as the first run left it, and prints the
    message a second time. *)
Theorem script_rerun (payload : string) (w : world) :
  (script payload w).2 = Ok tt →
  script payload (script payload w).1 =
    (World (fs (script payload w).1)
       (stdout (script payload w).1 ++ ["Icon created successfully."]), Ok tt).
Proof.
  destruct (b64decode payload) as [data|e] eqn:Hdec;
    [|by rewrite (script_undecoded _ _ w Hdec)].
  destruct (script_decoded_cases _ _ w Hdec)
    as [(Hpar & Hp & ->)|(_ & e & _ & ->)]; [|discriminate].
  intros _. cbn [fst fs stdout].
  destruct (script_decoded_cases _ _
              (World (<[icon_path := File data]> (fs w))
                 (stdout w ++ ["Icon created successfully."])) Hdec)
    as [(_ & _ & ->)|(Hno & _)].
  - cbn [fs stdout]. by rewrite insert_insert_eq.
  - destruct Hno. rewrite !stat_insert by done.
    split; [|by case_decide].
    case_decide as E; [by destruct (dirname_ne icon_path)|].
    by destruct w.
Qed.

Lemma script_rerun_witness :
  script "QUJD" (script "QUJD" public_world).1 =
    (World (fs (script "QUJD" public_world).1)
       (stdout (script "QUJD" public_world).1 ++ ["Icon created successfully."]),
     Ok tt).
Proof. apply (script_rerun "QUJD" public_world). by vm_compute. Defined.

(** Characters of the text that are neither in the base64 alphabet nor
    the pad (spaces, line breaks, punctuation) do not matter: an ASCII
    text and the same text without them make the script do the same. *)
Theorem script_ignores_other_characters (s s' : string) (w : world) :
  forallb (λ c, c <? 128) (code_points s) = true →
  code_points s' = List.filter significant (code_points s) →
  script s' w = script s w.
Proof.
  intros Hascii Hs'. unfold script.
  by rewrite (b64decode_filter s s' Hascii Hs').
Qed.

Lemma script_ignores_other_characters_witness :
  script "QUJD" public_world = script "QU JD!" public_world.
Proof.
  apply (script_ignores_other_characters "QU JD!" "QUJD" public_world);
    by vm_compute.
Defined.

(** The file the script writes holds at most three bytes for every four
    characters of the text. *)
Theorem script_output_size (payload : string) (w w' : world) :
  script payload w = (w', Ok tt) →
  ∃ data, stat w' icon_path = Some (File data) ∧
    (4 * length data ≤ 3 * String.length payload)%nat.
Proof.
  intros Hrun. destruct (b64decode payload) as [data|e] eqn:Hdec;
    [|by rewrite (script_undecoded _ _ w Hdec) in Hrun].
  destruct (script_decoded_cases _ _ w Hdec)
    as [(_ & _ & Hok)|(_ & e & _ & Herr)]; [|congruence].
  rewrite Hok in Hrun. injection Hrun as <-.
  exists data. split; [|by apply b64decode_length].
  rewrite stat_insert by done. by case_decide.
Qed.

Lemma script_output_size_witness :
  ∃ data, stat (script "QUJD" public_world).1 icon_path = Some (File data) ∧
    (4 * length data ≤ 3 * String.length "QUJD")%nat.
Proof.
  apply (script_output_size "QUJD" public_world (script "QUJD" public_world).1).
  apply run_returns. by vm_compute.
Defined.

End DecoderWriterMore.

(** ** More of the drawer script *)

Section DrawerMore.
Import os Worlds Shapes create_new_icons_py.
Local Open Scope Z_scope.

Variable png_encode : Image → bytes.

Lemma icon_bytes_eq (size : Z) :
  0 <= size <= 536870910 →
  ∃ img, draw_icon size = Ok img ∧ im_size img = (size, size) ∧
         icon_bytes png_encode size = png_encode img.
Proof.
  intros Hs. eexists. split; [by apply draw_icon_ok|]. split; [done|].
  unfold icon_bytes. by rewrite draw_icon_ok.
Qed.

Lemma drawn_has_pixels (size : Z) : 0 < size → is_empty (drawn size) = false.
Proof.
  intros Hs. unfold is_empty. cbn [drawn im_size fst snd].
  destruct (Z.eqb_spec size 0); [lia|done].
Qed.

Lemma create_icon_write (size : Z) (filename : path) (w : world) :
  0 < size <= 536870910 → save_format filename = Some "PNG" →
  create_icon png_encode size filename w =
    write_binary filename (icon_bytes png_encode size) w.
Proof.
  intros Hs Hfmt. rewrite create_icon_unfold. unfold icon_bytes.
  rewrite draw_icon_ok by lia. apply save_png; [done|].
  apply drawn_has_pixels. lia.
Qed.

(** Saving an image without pixels never returns normally. *)
Lemma save_empty_raises (img : Image) (filename : path) (w : world) :
  is_empty img = true → (save png_encode img filename w).2 ≠ Ok tt.
Proof.
  intros Hempty. unfold save. destruct (save_format filename); [|done].
  rewrite Hempty. unfold bind, path_exists.
  destruct (write_binary filename (png_encode img) w) as [w1 [[]|e]]; [|done].
  destruct (stat w filename); [done|].
  unfold remove. by destruct (stat w1 filename) as [[|d]|].
Qed.

Lemma icon_names_png :
  save_format icon16 = Some "PNG" ∧ save_format icon48 = Some "PNG" ∧
  save_format icon128 = Some "PNG".
Proof. by vm_compute. Qed.

(** [create_icon] at the edges and at its normal return.  A size that
    [Image.new] refuses (negative, or above [INT_MAX / 4 - 1]) makes the
    call raise before any file is touched.  When the call returns
    normally under a PNG file name, the size was positive, the named file
    holds the encoding of an S by S raster, and every other path and the
    output are as they were. *)
Theorem create_icon_result (S : Z) (filename : path) (w : world) :
  (S < 0 →
   create_icon png_encode S filename w =
     (w, Raise (ValueError "Width and height must be >= 0"))) ∧
  (536870910 < S →
   create_icon png_encode S filename w =
     (w, Raise (if 2147483647 <? S
                then OverflowError
                else MemoryError))) ∧
  (∀ w', save_format filename = Some "PNG" →
     create_icon png_encode S filename w = (w', Ok tt) →
     0 < S ∧
     ∃ img, draw_icon S = Ok img ∧ im_size img = (S, S) ∧
       stat w' filename = Some (File (png_encode img)) ∧
       (∀ q, q ≠ filename → stat w' q = stat w q) ∧
       stdout w' = stdout w).
Proof.
  split; [|split].
  - intros HS. rewrite create_icon_unfold. by rewrite draw_icon_negative.
  - intros HS. rewrite create_icon_unfold. by rewrite draw_icon_too_large.
  - intros w' Hfmt. rewrite create_icon_unfold.
    destruct (draw_icon S) as [img|e] eqn:Hdraw; [|discriminate].
    pose proof (draw_icon_inv _ _ Hdraw) as [HS ->].
    destruct (Z.eq_dec S 0) as [->|Hnz].
    + intros Hsave.
      destruct (save_empty_raises (drawn 0) filename w); [done|].
      by rewrite Hsave.
    + rewrite save_png by (done || (apply drawn_has_pixels; lia)).
      intros Hwr. split; [lia|]. exists (drawn S).
      split; [done|]. split; [done|]. by apply write_binary_frame in Hwr.
Qed.

(** The three writes and the message, with the rasters encoded. *)
Lemma generate_icons_unfold (w : world) :
  generate_icons png_encode w =
    (write_binary icon16 (icon_bytes png_encode 16) >>
     write_binary icon48 (icon_bytes png_encode 48) >>
     write_binary icon128 (icon_bytes png_encode 128) >>
     print "Icons generated successfully!") w.
Proof.
  destruct icon_names_png as (F16 & F48 & F128).
  unfold generate_icons, bind.
  rewrite (create_icon_write 16) by (done || lia).
  destruct (write_binary icon16 _ w) as [w1 [[]|e]]; [|done].
  rewrite (create_icon_write 48) by (done || lia).
  destruct (write_binary icon48 _ w1) as [w2 [[]|e]]; [|done].
  by rewrite (create_icon_write 128) by (done || lia).
Qed.

Lemma icons_dir_is_dirname :
  dirname icon16 = icons_dir ∧ dirname icon48 = icons_dir ∧
  dirname icon128 = icons_dir.
Proof. by repeat split. Qed.

Lemma icon_paths_distinct :
  icon16 ≠ icon48 ∧ icon16 ≠ icon128 ∧ icon48 ≠ icon128 ∧
  icon16 ≠ icons_dir ∧ icon48 ≠ icons_dir ∧ icon128 ≠ icons_dir.
Proof. repeat split; intros [=]. Qed.

Lemma icon_paths_not_above_dir :
  ¬ icon16 `prefix_of` icons_dir ∧ ¬ icon48 `prefix_of` icons_dir ∧
  ¬ icon128 `prefix_of` icons_dir.
Proof. repeat split; intros H%prefix_length; cbn in H; lia. Qed.

(** When the directory is there and none of the three names is taken by
    a directory, the three files are written and the message printed. *)
Lemma generate_icons_ok (w : world) :
  stat w icons_dir = Some Dir →
  stat w icon16 ≠ Some Dir → stat w icon48 ≠ Some Dir →
  stat w icon128 ≠ Some Dir →
  generate_icons png_encode w =
    (World (<[icon128 := File (icon_bytes png_encode 128)]>
             (<[icon48 := File (icon_bytes png_encode 48)]>
               (<[icon16 := File (icon_bytes png_encode 16)]> (fs w))))
       (stdout w ++ ["Icons generated successfully!"]), Ok tt).
Proof.
  intros Hdir H16 H48 H128.
  destruct icon_paths_distinct as (N1 & N2 & N3 & N4 & N5 & N6).
  destruct w as [m out]. rewrite generate_icons_unfold. unfold bind.
  rewrite write_binary_ok by done. cbn [fs stdout].
  rewrite write_binary_ok; cycle 1.
  { rewrite stat_insert by done. by case_decide. }
  { rewrite stat_insert by done. by case_decide. }
  cbn [fs stdout].
  rewrite write_binary_ok; cycle 1.
  { rewrite !stat_insert by done. by repeat case_decide. }
  { rewrite !stat_insert by done. by repeat case_decide. }
  done.
Qed.

(** Conversely, a normal return means the directory was there and no
    name was taken by a directory. *)
Lemma generate_icons_inv (w w' : world) :
  generate_icons png_encode w = (w', Ok tt) →
  stat w icons_dir = Some Dir ∧
  stat w icon16 ≠ Some Dir ∧ stat w icon48 ≠ Some Dir ∧
  stat w icon128 ≠ Some Dir.
Proof.
  destruct icon_paths_distinct as (N1 & N2 & N3 & N4 & N5 & N6).
  rewrite generate_icons_unfold. unfold bind.
  destruct (write_binary icon16 _ w) as [w1 [[]|e]] eqn:H1; [|discriminate].
  destruct (write_binary icon48 _ w1) as [w2 [[]|e]] eqn:H2; [|discriminate].
  destruct (write_binary icon128 _ w2) as [w3 [[]|e]] eqn:H3; [|discriminate].
  intros _.
  pose proof (proj1 (write_binary_ok_iff icon16 (icon_bytes png_encode 16) w)) as A1.
  pose proof (proj1 (write_binary_ok_iff icon48 (icon_bytes png_encode 48) w1)) as A2.
  pose proof (proj1 (write_binary_ok_iff icon128 (icon_bytes png_encode 128) w2)) as A3.
  rewrite H1 in A1. rewrite H2 in A2. rewrite H3 in A3.
  destruct (A1 eq_refl) as [D1 P1], (A2 eq_refl) as [_ P2], (A3 eq_refl) as [_ P3].
  apply write_binary_frame in H1 as (_ & F1 & _).
  apply write_binary_frame in H2 as (_ & F2 & _).
  rewrite F2, F1 in P3 by done. rewrite F1 in P2 by done.
  done.
Qed.

(** Nothing but the final [print] writes to the output. *)
Lemma write_binary_stdout (p : path) (data : bytes) (w : world) :
  stdout (write_binary p data w).1 = stdout w.
Proof.
  destruct (write_binary p data w) as [w1 r] eqn:Hwr.
  by apply write_binary_inv in Hwr as [(_ & _ & _ & ->)|(-> & _)].
Qed.

Lemma generate_icons_stdout (w : world) :
  stdout (generate_icons png_encode w).1 =
    match (generate_icons png_encode w).2 with
    | Ok _ => stdout w ++ ["Icons generated successfully!"]
    | Raise _ => stdout w
    end.
Proof.
  rewrite generate_icons_unfold. unfold bind.
  pose proof (write_binary_stdout icon16 (icon_bytes png_encode 16) w) as S1.
  destruct (write_binary icon16 _ w) as [w1 [[]|e]]; [|done].
  pose proof (write_binary_stdout icon48 (icon_bytes png_encode 48) w1) as S2.
  destruct (write_binary icon48 _ w1) as [w2 [[]|e]]; [|by rewrite <- S1].
  pose proof (write_binary_stdout icon128 (icon_bytes png_encode 128) w2) as S3.
  destruct (write_binary icon128 _ w2) as [w3 [[]|e]];
    unfold print; cbn [fst snd fs stdout] in *; congruence.
Qed.

(** The script is [makedirs] followed by the three writes. *)
Lemma main_unfold (w : world) :
  main png_encode w =
    match makedirs icons_dir true w with
    | (w1, Ok _) => generate_icons png_encode w1
    | (w1, Raise e) => (w1, Raise e)
    end.
Proof. reflexivity. Qed.

Lemma generate_icons_wf (w : world) :
  fs_wf w → fs_wf (generate_icons png_encode w).1.
Proof.
  intros Hwf. rewrite generate_icons_unfold. unfold bind.
  destruct (write_binary icon16 _ w) as [w1 r1] eqn:H1.
  apply (write_binary_wf _ _ _ _ _ Hwf) in H1.
  destruct r1 as [[]|e]; [|done].
  destruct (write_binary icon48 _ w1) as [w2 r2] eqn:H2.
  apply (write_binary_wf _ _ _ _ _ H1) in H2.
  destruct r2 as [[]|e]; [|done].
  destruct (write_binary icon128 _ w2) as [w3 r3] eqn:H3.
  apply (write_binary_wf _ _ _ _ _ H2) in H3.
  destruct r3 as [[]|e]; [|done]. by destruct w3.
Qed.

(** A normal run of the script, step by step. *)
Lemma main_ok_inv (w w' : world) :
  fs_wf w → main png_encode w = (w', Ok tt) →
  ∃ w1,
    makedirs icons_dir true w = (w1, Ok tt) ∧ fs_wf w1 ∧ fs_wf w' ∧
    stdout w1 = stdout w ∧
    (∀ q, ¬ q `prefix_of` icons_dir → stat w1 q = stat w q) ∧
    stat w1 icons_dir = Some Dir ∧
    stat w1 icon16 ≠ Some Dir ∧ stat w1 icon48 ≠ Some Dir ∧
    stat w1 icon128 ≠ Some Dir ∧
    w' = World (<[icon128 := File (icon_bytes png_encode 128)]>
                 (<[icon48 := File (icon_bytes png_encode 48)]>
                   (<[icon16 := File (icon_bytes png_encode 16)]> (fs w1))))
           (stdout w1 ++ ["Icons generated successfully!"]).
Proof.
  intros Hwf. rewrite main_unfold.
  destruct (makedirs icons_dir true w) as [w1 [[]|e]] eqn:Hmk; [|discriminate].
  intros Hgen. exists w1.
  pose proof Hmk as Hmk'. unfold makedirs in Hmk'.
  pose proof (makedirs_rev_frame _ _ _ _ _ Hmk') as Hframe.
  rewrite rev_involutive in Hframe.
  apply makedirs_rev_extends in Hmk' as [[Hout _] Hwf1].
  pose proof (generate_icons_wf w1 (Hwf1 Hwf)) as Hwf'.
  rewrite Hgen in Hwf'. cbn [fst] in Hwf'.
  pose proof (generate_icons_inv _ _ Hgen) as (Hdir & H16 & H48 & H128).
  rewrite generate_icons_ok in Hgen by done. injection Hgen as <-.
  repeat split; auto.
Qed.

Lemma inserted_icons_stat (m : gmap path node) out (b16 b48 b128 : bytes) :
  let w' := World (<[icon128 := File b128]>
                    (<[icon48 := File b48]> (<[icon16 := File b16]> m))) out in
  stat w' icon16 = Some (File b16) ∧ stat w' icon48 = Some (File b48) ∧
  stat w' icon128 = Some (File b128) ∧
  ∀ q, q ≠ icon16 → q ≠ icon48 → q ≠ icon128 → stat w' q = stat (World m out) q.
Proof.
  destruct icon_paths_distinct as (N1 & N2 & N3 & _). cbv zeta.
  repeat split; try (rewrite !stat_insert by done; by repeat case_decide).
  intros q Q1 Q2 Q3. rewrite !stat_insert by done. by repeat case_decide.
Qed.

(** The script returns normally only if no component of the icons
    directory is a regular file and none of the three icon names is taken
    by a directory. *)
Theorem main_success_needs (w : world) :
  fs_wf w → (main png_encode w).2 = Ok tt →
  no_file_on w icons_dir ∧
  stat w icon16 ≠ Some Dir ∧ stat w icon48 ≠ Some Dir ∧
  stat w icon128 ≠ Some Dir.
Proof.
  intros Hwf.
  destruct icon_paths_not_above_dir as (P1 & P2 & P3).
  destruct (main png_encode w) as [w' r] eqn:Hmain. cbn [snd]. intros ->.
  destruct (main_ok_inv _ _ Hwf Hmain)
    as (w1 & Hmk & _ & _ & _ & Hframe & _ & H16 & H48 & H128 & _).
  rewrite Hframe in H16, H48, H128 by done.
  split; [by eapply makedirs_ok_no_file|done].
Qed.

(** After a normal run the icons directory exists, each of the three
    files holds the encoding of a square raster of its size, the message
    has been printed once, the file system is still well formed, and
    every path that is neither a component of the icons directory nor one
    of the three files is as it was. *)
Theorem main_result (w w' : world) :
  fs_wf w → main png_encode w = (w', Ok tt) →
  fs_wf w' ∧
  stat w' icons_dir = Some Dir ∧
  (∀ size filename,
     In (size, filename) [(16, icon16); (48, icon48); (128, icon128)] →
     ∃ img, draw_icon size = Ok img ∧ im_size img = (size, size) ∧
            stat w' filename = Some (File (png_encode img))) ∧
  stdout w' = stdout w ++ ["Icons generated successfully!"] ∧
  (∀ q, ¬ q `prefix_of` icons_dir →
        q ≠ icon16 → q ≠ icon48 → q ≠ icon128 → stat w' q = stat w q).
Proof.
  intros Hwf Hmain.
  destruct (main_ok_inv _ _ Hwf Hmain)
    as (w1 & _ & _ & Hwf' & Hout & Hframe & Hdir & _ & _ & _ & ->).
  destruct icon_paths_distinct as (_ & _ & _ & N4 & N5 & N6).
  destruct (inserted_icons_stat (fs w1) (stdout w1 ++ ["Icons generated successfully!"])
              (icon_bytes png_encode 16) (icon_bytes png_encode 48)
              (icon_bytes png_encode 128)) as (S16 & S48 & S128 & Sother).
  cbv zeta in *.
  split; [done|]. split; [|split; [|split]].
  - rewrite Sother by done. by destruct w1.
  - intros size filename Hin. cbn [In] in Hin.
    destruct Hin as [[= <- <-]|[[= <- <-]|[[= <- <-]|[]]]];
      [destruct (icon_bytes_eq 16 ltac:(lia)) as (img & Himg & Hsz & Hb)
      |destruct (icon_bytes_eq 48 ltac:(lia)) as (img & Himg & Hsz & Hb)
      |destruct (icon_bytes_eq 128 ltac:(lia)) as (img & Himg & Hsz & Hb)];
      exists img; (split; [done|]); (split; [done|]); rewrite <- Hb; done.
  - cbn [stdout]. by rewrite Hout.
  - intros q Hq Q1 Q2 Q3. rewrite Sother by done.
    rewrite <- (Hframe q Hq). by destruct w1.
Qed.

(** The message is printed exactly when the script returns normally:
    whatever goes wrong, nothing is printed. *)
Theorem main_prints_on_success_only (w : world) :
  stdout (main png_encode w).1 =
    match (main png_encode w).2 with
    | Ok _ => stdout w ++ ["Icons generated successfully!"]
    | Raise _ => stdout w
    end.
Proof.
  rewrite main_unfold.
  destruct (makedirs icons_dir true w) as [w1 r] eqn:Hmk.
  unfold makedirs in Hmk. apply makedirs_rev_extends in Hmk as [[Hout _] _].
  destruct r as [[]|e]; [|done].
  rewrite generate_icons_stdout. by rewrite Hout.
Qed.

(** Nothing is rolled back.  With the directory in place or creatable
    and the first name free, but the second name taken by a directory,
    the script ends with [IsADirectoryError] on the second name: the first
    icon has been written, the third name is untouched and nothing has
    been printed. *)
Theorem main_stops_at_first_failure (w : world) :
  fs_wf w → no_file_on w icons_dir →
  stat w icon16 ≠ Some Dir → stat w icon48 = Some Dir →
  (main png_encode w).2 = Raise (IsADirectoryError icon48) ∧
  stat (main png_encode w).1 icon16 = Some (File (icon_bytes png_encode 16)) ∧
  stat (main png_encode w).1 icon48 = Some Dir ∧
  stat (main png_encode w).1 icon128 = stat w icon128 ∧
  stdout (main png_encode w).1 = stdout w.
Proof.
  intros Hwf Hnf H16 H48.
  destruct icon_paths_not_above_dir as (P1 & P2 & P3).
  destruct icon_paths_distinct as (N1 & N2 & N3 & N4 & N5 & N6).
  destruct (makedirs_no_file_ok icons_dir w Hwf Hnf) as [w1 Hmk].
  rewrite main_unfold, Hmk.
  pose proof Hmk as Hmk'. unfold makedirs in Hmk'.
  pose proof (makedirs_rev_isdir _ _ _ _ Hmk') as Hdir.
  pose proof (makedirs_rev_frame _ _ _ _ _ Hmk') as Hframe.
  rewrite rev_involutive in Hdir, Hframe.
  apply makedirs_rev_extends in Hmk' as [[Hout _] _].
  destruct w1 as [m out]. cbn [fs stdout] in *.
  assert (S48 : stat (World (<[icon16 := File (icon_bytes png_encode 16)]> m) out)
                  icon48 = Some Dir).
  { rewrite stat_insert by done. case_decide; [done|]. by rewrite Hframe. }
  assert (Sdir : stat (World (<[icon16 := File (icon_bytes png_encode 16)]> m) out)
                   (dirname icon48) = Some Dir).
  { rewrite stat_insert by done. by case_decide. }
  assert (Hgen : generate_icons png_encode (World m out) =
                   (World (<[icon16 := File (icon_bytes png_encode 16)]> m) out,
                    Raise (IsADirectoryError icon48))).
  { rewrite generate_icons_unfold. unfold bind.
    rewrite write_binary_ok; [|done|by rewrite Hframe]. cbn [fs stdout].
    unfold write_binary at 1. by rewrite Sdir, S48. }
  rewrite Hgen. cbn [fst snd].
  split; [done|]. split; [|split; [done|split; [|done]]].
  - rewrite stat_insert by done. by case_decide.
  - rewrite stat_insert by done. case_decide; [done|]. by apply Hframe.
Qed.

(** Running the script again after a normal run succeeds again, leaves
    the file system exactly as the first run left it, and prints the
    message a second time. *)
Theorem main_rerun (w : world) :
  fs_wf w → (main png_encode w).2 = Ok tt →
  main png_encode (main png_encode w).1 =
    (World (fs (main png_encode w).1)
       (stdout (main png_encode w).1 ++ ["Icons generated successfully!"]),
     Ok tt).
Proof.
  intros Hwf. destruct (main png_encode w) as [w' r] eqn:Hmain.
  cbn [fst snd]. intros ->.
  destruct (main_ok_inv _ _ Hwf Hmain)
    as (w1 & _ & _ & Hwf' & _ & _ & Hdir & _ & _ & _ & Hw').
  destruct icon_paths_distinct as (_ & _ & _ & N4 & N5 & N6).
  destruct (inserted_icons_stat (fs w1) (stdout w1 ++ ["Icons generated successfully!"])
              (icon_bytes png_encode 16) (icon_bytes png_encode 48)
              (icon_bytes png_encode 128)) as (S16 & S48 & S128 & Sother).
  cbv zeta in *. rewrite <- Hw' in S16, S48, S128, Sother.
  assert (Hdir' : stat w' icons_dir = Some Dir).
  { rewrite Sother by done. by destruct w1. }
  rewrite main_unfold, makedirs_existing by done.
  rewrite generate_icons_ok by (by rewrite ?S16, ?S48, ?S128).
  do 3 f_equal.
  rewrite (insert_id (fs w') icon16) by exact S16.
  rewrite (insert_id (fs w') icon48) by exact S48.
  by rewrite (insert_id (fs w') icon128) by exact S128.
Qed.

End DrawerMore.

(** ** More sample runs *)

Section SampleRunsMore.
Import os Worlds Shapes create_new_icons_py.
Local Open Scope Z_scope.

(** A world made by [makedirs] alone from an empty disk is well formed
    and holds no file. *)
Lemma makedirs_on_bare_world (p : path) :
  fs_wf (makedirs p true bare_world).1 ∧
  ∀ q, no_file_on (makedirs p true bare_world).1 q.
Proof.
  destruct (makedirs p true bare_world) as [w r] eqn:Hmk. cbn [fst].
  unfold makedirs in Hmk. apply makedirs_rev_extends in Hmk as [Hadd Hwf].
  split; [apply Hwf, bare_world_wf|].
  intros q q' d _ Hfile. apply (dirs_added_files _ _ _ _ Hadd) in Hfile.
  by apply (bare_world_no_file q' q' d).
Qed.

Lemma makedirs_blocked_by_file_witness :
  let w := (write_binary ["public"] [1] bare_world).1 in
  ∃ w' e, makedirs ["public"; "icons"] true w = (w', Raise e) ∧
          is_OSError e = true ∧ stat w' ["public"] = Some (File [1]).
Proof.
  intros w.
  apply (makedirs_blocked_by_file ["public"; "icons"] ["public"] [1] w).
  - apply (write_binary_wf ["public"] [1] bare_world _ (Ok tt));
      [apply bare_world_wf|].
    apply run_returns. by vm_compute.
  - by exists ["icons"].
  - by vm_compute.
Defined.

Lemma makedirs_builds_chain_witness :
  fs_wf (makedirs icons_dir true bare_world).1 ∧
  (∀ q, q `prefix_of` icons_dir →
        stat (makedirs icons_dir true bare_world).1 q = Some Dir) ∧
  (∀ q, ¬ q `prefix_of` icons_dir →
        stat (makedirs icons_dir true bare_world).1 q = stat bare_world q) ∧
  stdout (makedirs icons_dir true bare_world).1 = stdout bare_world.
Proof.
  apply (makedirs_builds_chain icons_dir bare_world
           (makedirs icons_dir true bare_world).1); [apply bare_world_wf|].
  apply run_returns. by vm_compute.
Defined.

Lemma create_icon_result_witness :
  create_icon width_encoder (-1) icon16 bare_world =
    (bare_world, Raise (ValueError "Width and height must be >= 0")) ∧
  create_icon width_encoder 536870911 icon16 bare_world =
    (bare_world, Raise MemoryError) ∧
  0 < 16 ∧
  ∃ img, draw_icon 16 = Ok img ∧ im_size img = (16, 16) ∧
    stat (create_icon width_encoder 16 ["icon16.png"] bare_world).1 ["icon16.png"]
      = Some (File (width_encoder img)) ∧
    (∀ q, q ≠ ["icon16.png"] →
       stat (create_icon width_encoder 16 ["icon16.png"] bare_world).1 q
       = stat bare_world q) ∧
    stdout (create_icon width_encoder 16 ["icon16.png"] bare_world).1
      = stdout bare_world.
Proof.
  split; [|split].
  - apply (create_icon_result width_encoder (-1) icon16 bare_world). lia.
  - apply (create_icon_result width_encoder 536870911 icon16 bare_world). lia.
  - apply (create_icon_result width_encoder 16 ["icon16.png"] bare_world).
    + by vm_compute.
    + apply run_returns. by vm_compute.
Defined.

Lemma main_success_needs_witness :
  no_file_on bare_world icons_dir ∧
  stat bare_world icon16 ≠ Some Dir ∧ stat bare_world icon48 ≠ Some Dir ∧
  stat bare_world icon128 ≠ Some Dir.
Proof.
  apply (main_success_needs width_encoder bare_world);
    [apply bare_world_wf|by vm_compute].
Defined.

Lemma main_result_witness :
  fs_wf (main width_encoder bare_world).1 ∧
  stat (main width_encoder bare_world).1 icons_dir = Some Dir ∧
  (∀ size filename,
     In (size, filename) [(16, icon16); (48, icon48); (128, icon128)] →
     ∃ img, draw_icon size = Ok img ∧ im_size img = (size, size) ∧
            stat (main width_encoder bare_world).1 filename
              = Some (File (width_encoder img))) ∧
  stdout (main width_encoder bare_world).1
    = stdout bare_world ++ ["Icons generated successfully!"] ∧
  (∀ q, ¬ q `prefix_of` icons_dir →
        q ≠ icon16 → q ≠ icon48 → q ≠ icon128 →
        stat (main width_encoder bare_world).1 q = stat bare_world q).
Proof.
  apply (main_result width_encoder bare_world (main width_encoder bare_world).1);
    [apply bare_world_wf|].
  apply run_returns. by vm_compute.
Defined.

Lemma main_stops_at_first_failure_witness :
  let w := (makedirs icon48 true bare_world).1 in
  (main width_encoder w).2 = Raise (IsADirectoryError icon48) ∧
  stat (main width_encoder w).1 icon16 = Some (File (icon_bytes width_encoder 16)) ∧
  stat (main width_encoder w).1 icon48 = Some Dir ∧
  stat (main width_encoder w).1 icon128 = stat w icon128 ∧
  stdout (main width_encoder w).1 = stdout w.
Proof.
  intros w.
  apply (main_stops_at_first_failure width_encoder w).
  - apply (makedirs_on_bare_world icon48).
  - apply (makedirs_on_bare_world icon48).
  - by vm_compute.
  - by vm_compute.
Defined.

Lemma main_rerun_witness :
  main width_encoder (main width_encoder bare_world).1 =
    (World (fs (main width_encoder bare_world).1)
       (stdout (main width_encoder bare_world).1
          ++ ["Icons generated successfully!"]), Ok tt).
Proof.
  apply (main_rerun width_encoder bare_world); [apply bare_world_wf|].
  by vm_compute.
Defined.

End SampleRunsMore.
